(** * LegendRenderer: a shallow embedding of [src/LegendRenderer/LegendRenderer.ts]

    The renderer turns a legend configuration into an SVG tree: one icon and
    one label per rule, laid out in columns, followed by remotely fetched
    legend images.  The development follows the source file top-down:
    JavaScript numbers, the scene graph that d3 builds, the geometry chosen
    for a symbolizer, the icon promise, the layout cursor, the remote images,
    the label fitter and finally [render]. *)

From Stdlib Require Import ZArith QArith String List Lia.
From stdpp Require Import base option list strings gmap pretty.

Local Open Scope Z_scope.
Local Open Scope string_scope.
Local Open Scope list_scope.

(** ** JavaScript numbers

    Layout coordinates are integral pixel counts; the only other value the
    arithmetic of the renderer can produce is [NaN], which appears as soon as
    an unset ([undefined]) configuration field is used in a sum. *)

Module JS.

Inductive num : Type :=
| Num (z : Z)
| NaN.

#[global] Instance num_eq_dec : EqDecision num.
Proof. solve_decision. Defined.

(** [ToNumber] on an optional numeric field: [undefined] becomes [NaN]. *)
Definition toNumber (o : option Z) : num :=
  match o with
  | Some z => Num z
  | None => NaN
  end.

Definition add (a b : num) : num :=
  match a, b with
  | Num x, Num y => Num (x + y)
  | _, _ => NaN
  end.

(** [a > b]; every comparison with [NaN] is false. *)
Definition gt (a b : num) : bool :=
  match a, b with
  | Num x, Num y => bool_decide (x > y)
  | _, _ => false
  end.

(** [a >= b]. *)
Definition ge (a b : num) : bool :=
  match a, b with
  | Num x, Num y => bool_decide (x >= y)
  | _, _ => false
  end.

(** [a === b] on numbers; [NaN] is not equal to anything. *)
Definition strictEq (a b : num) : bool :=
  match a, b with
  | Num x, Num y => bool_decide (x = y)
  | _, _ => false
  end.

(** Truthiness of an optional number: [undefined], [0] and [NaN] are falsy. *)
Definition truthy (o : option Z) : bool :=
  match o with
  | Some z => negb (bool_decide (z = 0))
  | None => false
  end.

(** Number to string, as a template literal does it. *)
Definition toString (a : num) : string :=
  match a with
  | Num z => pretty z
  | NaN => "NaN"
  end.

(** [str.substring(0, n)]: a negative end index is clamped to [0], one past
    the end to the length. *)
Definition substring0 (n : Z) (str : string) : string :=
  String.substring 0 (Z.to_nat n) str.

End JS.

(** ** The icon box *)

Definition iconSize : Z * Z := (45, 30).

(** ** Symbolizers, rules and styles (geostyler-style)

    The payload of a symbolizer is opaque to the renderer: it is handed to the
    style translator unchanged.  Only [kind] is inspected, by a [switch] on the
    string. *)

Record Symbolizer : Type := mkSymbolizer {
  kind : string;
  payload : string
}.

Record Rule : Type := mkRule {
  rule_name : string;
  symbolizers : list Symbolizer
}.

Record Style : Type := mkStyle {
  style_name : option string;
  rules : list Rule
}.

(** ** Geometries (ol/geom) *)

Definition coordinate : Type := Q * Q.

Inductive OlGeometry : Type :=
| OlGeomPoint (c : coordinate)
| OlGeomPolygon (rings : list (list coordinate))
| OlGeomLineString (cs : list coordinate).

Definition coord_eq (a b : coordinate) : Prop :=
  (fst a == fst b)%Q /\ (snd a == snd b)%Q.

Definition iconW : Q := inject_Z (fst iconSize).
Definition iconH : Q := inject_Z (snd iconSize).

(** [getGeometryForSymbolizer], lines 173-195. *)
Definition getGeometryForSymbolizer (symbolizer : Symbolizer) : OlGeometry :=
  let kind := kind symbolizer in
  if String.eqb kind "Mark" then OlGeomPoint (iconW / 2, iconH / 2)%Q
  else if String.eqb kind "Icon" then OlGeomPoint (iconW / 2, iconH / 2)%Q
  else if String.eqb kind "Text" then OlGeomPoint (iconW / 2, iconH / 2)%Q
  else if String.eqb kind "Fill" then
    OlGeomPolygon [[ (3, 3); (iconW - 3, 3); (iconW - 3, iconH - 3); (3, iconH - 3); (3, 3) ]]%Q
  else if String.eqb kind "Line" then
    OlGeomLineString [ (iconW / 6, iconH / 6); (iconW / 3, iconH / 3 * 2);
                       (iconW / 2, iconH / 3); (iconW / 6 * 5, iconH / 6 * 5) ]%Q
  else OlGeomPoint (iconW / 2, iconH / 2)%Q.

(** ** The scene graph built through d3-selection

    An element has a tag, attributes, inline styles, a text content and
    children in document order.  [append] returns the new child in d3 and the
    calls chained after it mutate that child; since nothing reads the tree in
    between, a child is built first and attached afterwards. *)

Inductive AttrValue : Type :=
| AStr (s : string)
| ANum (n : JS.num).

#[global] Instance AttrValue_eq_dec : EqDecision AttrValue.
Proof. solve_decision. Defined.

#[warnings="-register-all"]
Inductive Element : Type :=
| Elem (tag : string) (attrs : gmap string AttrValue)
       (styles : gmap string AttrValue) (textContent : string)
       (children : list Element).

Definition tag (e : Element) : string :=
  match e with Elem t _ _ _ _ => t end.
Definition attrs (e : Element) : gmap string AttrValue :=
  match e with Elem _ a _ _ _ => a end.
Definition styles (e : Element) : gmap string AttrValue :=
  match e with Elem _ _ s _ _ => s end.
Definition textContent (e : Element) : string :=
  match e with Elem _ _ _ x _ => x end.
Definition children (e : Element) : list Element :=
  match e with Elem _ _ _ _ c => c end.

Module D3.

Definition create (t : string) : Element := Elem t ∅ ∅ "" [].

Definition attr (name : string) (v : AttrValue) (e : Element) : Element :=
  match e with Elem t a s x c => Elem t (<[name := v]> a) s x c end.

Definition style (name : string) (v : AttrValue) (e : Element) : Element :=
  match e with Elem t a s x c => Elem t a (<[name := v]> s) x c end.

Definition text (str : string) (e : Element) : Element :=
  match e with Elem t a s _ c => Elem t a s str c end.

Definition append (child : Element) (parent : Element) : Element :=
  match parent with Elem t a s x c => Elem t a s x (c ++ [child]) end.

End D3.

(** ** Promises *)

Inductive PromiseState (A E : Type) : Type :=
| Pending
| Fulfilled (a : A)
| Rejected (e : E).

Arguments Pending {A E}.
Arguments Fulfilled {A E} a.
Arguments Rejected {A E} e.

(** ** Legend configuration, lines 19-43

    [configs] is declared as an array of item configurations but its entries
    are spliced into the array of legends and handed to [renderLegend], which
    reads [items] and [title] from them; they are legend configurations. *)

Record LegendItemConfiguration : Type := mkItem {
  item_rule : option Rule;
  item_title : string
}.

Record LegendConfiguration : Type := mkLegend {
  items : list LegendItemConfiguration;
  title : string
}.

Record RemoteLegend : Type := mkRemote {
  url : string;
  remote_title : string
}.

Inductive Overflow : Type := OverflowAuto | OverflowGroup.

#[global] Instance Overflow_eq_dec : EqDecision Overflow.
Proof. solve_decision. Defined.

Record LegendsConfiguration : Type := mkConfig {
  cfg_styles : option (list Style);
  cfg_configs : option (list LegendConfiguration);
  remoteLegends : option (list RemoteLegend);
  size : Z * Z;
  maxColumnHeight : option Z;
  maxColumnWidth : option Z;
  overflow : option Overflow;
  hideRect : bool
}.

(** The cursor [position]: [(columnX, rowY)]. *)
Definition Position : Type := JS.num * JS.num.

(** A decoded remote image. *)
Record Image : Type := mkImage {
  img_width : Z;
  img_height : Z;
  base64 : string
}.

(** What a run of asynchronous code comes to: it completes with a value, it
    fails with an exception (a rejected promise), or it does not settle. *)
Inductive Outcome (A : Type) : Type :=
| Completed (a : A)
| Failed
| Stalled.

Arguments Completed {A} a.
Arguments Failed {A}.
Arguments Stalled {A}.

(** ** The icon synthesizer, lines 201-248

    The style translator ([geostyler-openlayers-parser]), the immediate
    renderer and the canvas ([ol], DOM) are collaborators of the renderer.
    Their concrete styles and error values are opaque here, and what they
    answer is taken as given. *)

Section IconSynthesizer.

Context {OlStyle Error : Type}.

(** What a style, or a call of a style function, evaluates to. *)
Inductive StyleValue : Type :=
| SVUndefined
| SVStyle (s : OlStyle)
| SVArray (l : list OlStyle).

(** The [output] of the translator: a value, or a function of a feature and
    a resolution; [None] from the function stands for an exception. *)
Inductive StyleOutput : Type :=
| OStatic (v : StyleValue)
| OFunction (f : option OlGeometry -> Z -> option StyleValue).

Record WriteStyleResult : Type := mkWriteStyleResult {
  output : StyleOutput;
  errors : option (list Error)
}.

Record Collaborators : Type := mkCollaborators {
  (** [styleParser.writeStyle(style)]; [None] when its promise rejects. *)
  writeStyle : Style -> option WriteStyleResult;
  (** Whether [renderer.setStyle(s)] returns normally. *)
  setStyle_ok : OlStyle -> bool;
  (** Whether [renderer.drawGeometry(g)] returns normally under the style
      set last. *)
  drawGeometry_ok : OlStyle -> OlGeometry -> bool;
  (** [canvas.toDataURL('image/png')] of what was drawn; [None] when it
      throws. *)
  toDataURL : list (OlStyle * OlGeometry) -> option string;
  (** [fetch], [blob], [readAsDataURL] and [decode] of a remote legend;
      [None] when any of them fails. *)
  fetchImage : string -> option Image;
  (** [getBoundingClientRect().width] of an attached item group. *)
  boundingWidth : Element -> Q
}.

Context (ext : Collaborators).

(** The state the promise executor works on: how the promise is settled so
    far, the style the renderer holds and what it has drawn. *)
Record ExecState : Type := mkExecState {
  settled : option (PromiseState string (option Error));
  current : option OlStyle;
  canvas : list (OlStyle * OlGeometry)
}.

(** A computation of the executor: it returns a value or throws ([None]),
    and leaves a state either way. *)
Definition Exec (A : Type) : Type := ExecState -> option A * ExecState.

Definition ret {A} (a : A) : Exec A := fun st => (Some a, st).

Definition throw {A} : Exec A := fun st => (None, st).

Definition bind {A B} (m : Exec A) (k : A -> Exec B) : Exec B :=
  fun st =>
    match m st with
    | (Some a, st') => k a st'
    | (None, st') => (None, st')
    end.

Notation "x <- m ;; k" := (bind m (fun x => k))
  (at level 100, m at next level, right associativity).
Notation "m ;;; k" := (bind m (fun _ => k))
  (at level 100, right associativity).

(** [resolve] and [reject] settle the promise once; later calls are ignored. *)
Definition settle (s : PromiseState string (option Error)) : Exec unit :=
  fun st =>
    match settled st with
    | Some _ => (Some tt, st)
    | None => (Some tt, mkExecState (Some s) (current st) (canvas st))
    end.

Definition resolve (uri : string) : Exec unit := settle (Fulfilled uri).
Definition reject (e : option Error) : Exec unit := settle (Rejected e).

(** [await p]: the value, or the rejection thrown. *)
Definition await {A} (p : option A) : Exec A :=
  match p with
  | Some a => ret a
  | None => throw
  end.

(** [renderer.setStyle]; handing it [undefined] throws when it reads the
    fill of the style. *)
Definition setStyle (v : option OlStyle) : Exec unit :=
  fun st =>
    match v with
    | Some s =>
        if setStyle_ok ext s
        then (Some tt, mkExecState (settled st) (Some s) (canvas st))
        else (None, st)
    | None => (None, st)
    end.

Definition drawGeometry (geom : OlGeometry) : Exec unit :=
  fun st =>
    match current st with
    | Some s =>
        if drawGeometry_ok ext s geom
        then (Some tt, mkExecState (settled st) (current st) (canvas st ++ [(s, geom)]))
        else (None, st)
    | None => (None, st)
    end.

Definition canvasToDataURL : Exec string :=
  fun st => (toDataURL ext (canvas st), st).

(** [array.forEach(f)] inside the executor. *)
Fixpoint forEach {A} (f : A -> Exec unit) (l : list A) : Exec unit :=
  match l with
  | [] => ret tt
  | x :: l' => f x ;;; forEach f l'
  end.

(** Lines 231-242: every concrete style is set on the renderer and all
    geometries are drawn under it. *)
Definition drawStyles (olStyle : StyleOutput) (geoms : list OlGeometry) : Exec unit :=
  let drawGeoms := forEach drawGeometry geoms in
  olStyle <- match olStyle with
             | OFunction f => await (f (head geoms) 1)
             | OStatic v => ret v
             end ;;
  match olStyle with
  | SVArray l => forEach (fun styleItem => setStyle (Some styleItem) ;;; drawGeoms) l
  | SVStyle s => setStyle (Some s) ;;; drawGeoms
  | SVUndefined => setStyle None ;;; drawGeoms
  end.

(** The body of the [try] block, lines 227-243. *)
Definition executor (style : Style) (geoms : list OlGeometry) : Exec unit :=
  r <- await (writeStyle ext style) ;;
  let olStyle := output r in
  let errors := default [] (errors r) in
  (if (0 <? length errors)%nat then reject (head errors) else ret tt) ;;;
  drawStyles olStyle geoms ;;;
  uri <- canvasToDataURL ;;
  resolve uri.

(** [try { ... } catch (error) { reject(); }] *)
Definition tryCatch (body : Exec unit) : Exec unit :=
  fun st =>
    match body st with
    | (Some tt, st') => (Some tt, st')
    | (None, st') => reject None st'
    end.

(** The geometries pushed by the [forEach] of line 211. *)
Definition ruleGeoms (rule : Rule) : list OlGeometry :=
  fold_left (fun geoms symbolizer => geoms ++ [getGeometryForSymbolizer symbolizer])
            (symbolizers rule) [].

(** The single-rule style of lines 215-221. *)
Definition ruleStyle (rule : Rule) : Style :=
  mkStyle (Some "") [mkRule "" (symbolizers rule)].

(** A fresh canvas and renderer, and a promise not settled yet. *)
Definition freshState : ExecState := mkExecState None None [].

Definition getRuleIcon (rule : Rule) : PromiseState string (option Error) :=
  let geoms := ruleGeoms rule in
  let style := ruleStyle rule in
  let '(_, st) := tryCatch (executor style geoms) freshState in
  match settled st with
  | Some s => s
  | None => Pending
  end.

(** The errors the translator reports for the style of a rule; none when
    [errors] is absent or the translator itself fails. *)
Definition reportedErrors (rule : Rule) : list Error :=
  match writeStyle ext (ruleStyle rule) with
  | Some r => default [] (errors r)
  | None => []
  end.

(** A computation that leaves the settlement of the promise alone. *)
Definition keepsSettlement {A} (m : Exec A) : Prop :=
  forall st, settled (snd (m st)) = settled st.

End IconSynthesizer.

Arguments StyleValue : clear implicits.
Arguments StyleOutput : clear implicits.
Arguments WriteStyleResult : clear implicits.
Arguments Collaborators : clear implicits.
Arguments ExecState : clear implicits.

(** ** Layout, remote legends, label fitting and [render] *)

(** What [renderLegendItem] returns: [undefined], or a promise. *)
Inductive ItemReturn : Type :=
| RetUndefined
| RetPromise (p : PromiseState unit unit).

Section LegendRenderer.

Context {OlStyle Error : Type}.
Context (ext : Collaborators OlStyle Error).
Context (config : LegendsConfiguration).

Definition legendItemGroup (item : LegendItemConfiguration) : Element :=
  D3.attr "title" (AStr (item_title item))
    (D3.attr "class" (AStr "legend-item") (D3.create "g")).

Definition itemRect (position : Position) : Element :=
  D3.style "stroke" (AStr "black")
    (D3.style "fill-opacity" (ANum (JS.Num 0))
      (D3.attr "height" (ANum (JS.Num (snd iconSize)))
        (D3.attr "width" (ANum (JS.Num (fst iconSize)))
          (D3.attr "y" (ANum (snd position))
            (D3.attr "x" (ANum (JS.add (fst position) (JS.Num 1)))
              (D3.create "rect")))))).

Definition itemImage (position : Position) (uri : string) : Element :=
  D3.attr "href" (AStr uri)
    (D3.attr "height" (ANum (JS.Num (snd iconSize)))
      (D3.attr "width" (ANum (JS.Num (fst iconSize)))
        (D3.attr "y" (ANum (snd position))
          (D3.attr "x" (ANum (JS.add (fst position) (JS.Num 1)))
            (D3.create "image"))))).

Definition itemText (position : Position) (label : string) : Element :=
  D3.attr "y" (ANum (JS.add (snd position) (JS.Num 20)))
    (D3.attr "x" (ANum (JS.add (JS.add (fst position) (JS.Num (fst iconSize)))
                               (JS.Num 5)))
      (D3.text label (D3.create "text"))).

(** The cursor after a placed item, lines 126-130. *)
Definition advanceAfterItem (position : Position) : Position :=
  let position := (fst position, JS.add (snd position) (JS.Num (snd iconSize + 5))) in
  if JS.truthy (maxColumnHeight config)
     && JS.ge (JS.add (JS.add (snd position) (JS.Num (snd iconSize))) (JS.Num 5))
              (JS.toNumber (maxColumnHeight config))
  then (JS.add (fst position) (JS.toNumber (maxColumnWidth config)), JS.Num 5)
  else position.

(** [renderLegendItem], lines 89-137.  The result is what the call returns,
    the container and the cursor once the returned promise has settled. *)
Definition renderLegendItem (container : Element) (item : LegendItemConfiguration)
    (position : Position) : ItemReturn * Element * Position :=
  match item_rule item with
  | Some rule =>
      let g := legendItemGroup item in
      match getRuleIcon ext rule with
      | Fulfilled uri =>
          let g := if negb (hideRect config)
                   then D3.append (itemRect position) g else g in
          let g := D3.append (itemImage position uri) g in
          let g := D3.append (itemText position (item_title item)) g in
          (RetPromise (Fulfilled tt), D3.append g container,
           advanceAfterItem position)
      | Rejected _ =>
          (RetPromise (Fulfilled tt), D3.append g container, position)
      | Pending =>
          (RetPromise Pending, D3.append g container, position)
      end
  | None => (RetUndefined, container, position)
  end.

(** The column break before a legend, lines 262-268. *)
Definition columnBreakBefore (legend : LegendConfiguration) (position : Position)
    : Position :=
  if negb (bool_decide (overflow config = Some OverflowAuto))
     && negb (JS.strictEq (fst position) (JS.Num 0))
  then
    let legendHeight :=
      JS.Num (Z.of_nat (length (items legend)) * (snd iconSize + 5) + 20) in
    if JS.gt (JS.add legendHeight (snd position))
             (JS.toNumber (maxColumnHeight config))
    then (JS.add (fst position) (JS.toNumber (maxColumnWidth config)), JS.Num 0)
    else position
  else position.

Definition legendTitle (text : string) (position : Position) : Element :=
  D3.attr "dy" (if JS.strictEq (snd position) (JS.Num 0)
                then AStr "1em"
                else ANum (JS.add (snd position) (JS.Num 15)))
    (D3.attr "dx" (ANum (fst position))
      (D3.attr "text-anchor" (AStr "start")
        (D3.attr "class" (AStr "legend-title")
          (D3.text text (D3.create "text"))))).

(** The title of a legend, lines 269-277. *)
Definition placeTitle (legend : LegendConfiguration) (container : Element)
    (position : Position) : Element * Position :=
  if bool_decide (title legend <> "")
  then (D3.append (legendTitle (title legend) position) container,
        (fst position, JS.add (snd position) (JS.Num 20)))
  else (container, position).

(** One link of the promise chain of [reduce], line 280. *)
Definition thenRenderLegendItem
    (cur : PromiseState unit unit * Element * Position)
    (item : LegendItemConfiguration)
    : PromiseState unit unit * Element * Position :=
  match cur with
  | (Fulfilled _, svg, position) =>
      match renderLegendItem svg item position with
      | (RetUndefined, svg, position) => (Fulfilled tt, svg, position)
      | (RetPromise p, svg, position) => (p, svg, position)
      end
  | _ => cur
  end.

(** [renderLegend], lines 256-282. *)
Definition renderLegend (legend : LegendConfiguration) (svg : Element)
    (position : Position) : PromiseState unit unit * Element * Position :=
  let container := D3.create "g" in
  let position := columnBreakBefore legend position in
  let '(container, position) := placeTitle legend container position in
  fold_left thenRenderLegendItem (items legend)
    (Fulfilled tt, D3.append container svg, position).

Definition remoteImage (position : Position) (img : Image) : Element :=
  D3.attr "href" (AStr (base64 img))
    (D3.attr "height" (ANum (JS.Num (img_height img)))
      (D3.attr "width" (ANum (JS.Num (img_width img)))
        (D3.attr "y" (ANum (snd position))
          (D3.attr "x" (ANum (fst position))
            (D3.create "image"))))).

Definition remoteTitle (text : string) (position : Position) : Element :=
  D3.attr "dy" (ANum (snd position))
    (D3.attr "dx" (ANum (fst position))
      (D3.attr "text-anchor" (AStr "start")
        (D3.attr "class" (AStr "legend-title")
          (D3.text text (D3.create "text"))))).

(** The body of the loop of [renderImages], lines 298-351. *)
Definition renderImage (cur : Element * Position) (remote : RemoteLegend)
    : Element * Position :=
  let legendSpacing := JS.Num 20 in
  let titleSpacing := JS.Num 5 in
  let '(svg, position) := cur in
  match fetchImage ext (url remote) with
  | Some img =>
      let position :=
        if bool_decide (overflow config = Some OverflowAuto)
           && JS.gt (JS.add (JS.add (JS.add (JS.Num (img_height img)) legendSpacing)
                                    titleSpacing)
                            (snd position))
                    (JS.toNumber (maxColumnHeight config))
        then (JS.add (fst position) (JS.toNumber (maxColumnWidth config)), JS.Num 0)
        else position in
      let '(svg, position) :=
        if bool_decide (remote_title remote <> "")
        then
          let position := (fst position, JS.add (snd position) legendSpacing) in
          let container :=
            D3.append (remoteTitle (remote_title remote) position) (D3.create "g") in
          (D3.append container svg,
           (fst position, JS.add (snd position) titleSpacing))
        else (svg, position) in
      (D3.append (remoteImage position img) svg,
       (fst position, JS.add (snd position) (JS.Num (img_height img))))
  | None => (svg, position)
  end.

(** [renderImages], lines 290-354. *)
Definition renderImages (remoteLegends : list RemoteLegend) (svg : Element)
    (position : Position) : Element * Position :=
  let '(svg, position) := fold_left renderImage remoteLegends (svg, position) in
  (D3.attr "xmlns" (AStr "http://www.w3.org/2000/svg") svg, position).

(** *** The label fitter, lines 144-167

    The groups selected by [g.legend-item] are the ones [renderLegendItem]
    appends, all of them SVG elements; their label is their first [text]
    child. *)

Fixpoint selectText (nodes : list Element) : option string :=
  match nodes with
  | [] => None
  | e :: nodes' =>
      if String.eqb (tag e) "text" then Some (textContent e) else selectText nodes'
  end.

Fixpoint setText (str : string) (nodes : list Element) : list Element :=
  match nodes with
  | [] => []
  | e :: nodes' =>
      if String.eqb (tag e) "text" then D3.text str e :: nodes'
      else e :: setText str nodes'
  end.

Definition nodeSetText (str : string) (node : Element) : Element :=
  match node with Elem t a s x c => Elem t a s x (setText str c) end.

(** [text.text()] on the label of a group; on an empty selection the getter
    throws. *)
Definition nodeText (node : Element) : Outcome string :=
  match selectText (children node) with
  | Some str => Completed str
  | None => Failed
  end.

(** [width > maxWidth]; false when [maxWidth] is [undefined]. *)
Definition wider (node : Element) (maxWidth : option Z) : bool :=
  match maxWidth with
  | Some m => negb (Qle_bool (boundingWidth ext node) (inject_Z m))
  | None => false
  end.

(** The [while] loop, lines 154-160, run for at most [fuel] rounds. *)
Fixpoint shortenLoop (fuel : nat) (maxWidth : option Z) (node : Element)
    (adapted : bool) : Outcome (Element * bool) :=
  if wider node maxWidth then
    match fuel with
    | O => Stalled
    | S fuel' =>
        match nodeText node with
        | Completed str =>
            let str := JS.substring0 (Z.of_nat (String.length str) - 1) str in
            shortenLoop fuel' maxWidth (nodeSetText str node) true
        | Failed => Failed
        | Stalled => Stalled
        end
    end
  else Completed (node, adapted).

(** The callback of [nodes.each], lines 145-166. *)
Definition shortenLabel (fuel : nat) (maxWidth : option Z) (node : Element)
    : Outcome Element :=
  match shortenLoop fuel maxWidth node false with
  | Completed (node, true) =>
      match nodeText node with
      | Completed str =>
          let str := JS.substring0 (Z.of_nat (String.length str) - 3) str in
          Completed (nodeSetText (str +:+ "...") node)
      | Failed => Failed
      | Stalled => Stalled
      end
  | Completed (node, false) => Completed node
  | Failed => Failed
  | Stalled => Stalled
  end.

Definition isLegendItem (e : Element) : bool :=
  String.eqb (tag e) "g"
  && bool_decide (attrs e !! "class" = Some (AStr "legend-item")).

(** [shortenLabels] over the children of [svg] that [g.legend-item] selects. *)
Fixpoint shortenEach (fuel : nat) (maxWidth : option Z) (nodes : list Element)
    : Outcome (list Element) :=
  match nodes with
  | [] => Completed []
  | e :: nodes' =>
      match (if isLegendItem e then shortenLabel fuel maxWidth e else Completed e) with
      | Completed e' =>
          match shortenEach fuel maxWidth nodes' with
          | Completed l => Completed (e' :: l)
          | Failed => Failed
          | Stalled => Stalled
          end
      | Failed => Failed
      | Stalled => Stalled
      end
  end.

Definition shortenLabels (fuel : nat) (svg : Element) (maxWidth : option Z)
    : Outcome Element :=
  match svg with
  | Elem t a s x c =>
      match shortenEach fuel maxWidth c with
      | Completed c' => Completed (Elem t a s x c')
      | Failed => Failed
      | Stalled => Stalled
      end
  end.

End LegendRenderer.

(** ** The orchestrator *)

(** [extractConfigFromStyle], lines 66-81. *)
Definition extractConfigFromStyle (style : Style) : LegendConfiguration :=
  let config := mkLegend [] "" in
  let config :=
    match style_name style with
    | Some name => if bool_decide (name <> "") then mkLegend (items config) name
                   else config
    | None => config
    end in
  fold_left (fun config rule =>
               mkLegend (items config ++ [mkItem (Some rule) (rule_name rule)])
                        (title config))
            (rules style) config.

Section Render.

Context {OlStyle Error : Type}.
Context (ext : Collaborators OlStyle Error).
Context (config : LegendsConfiguration).

(** The legend list, lines 368-374: the styles are pushed in order, then the
    configured legends are put in front by [unshift]. *)
Definition legendList : list LegendConfiguration :=
  let legends := [] in
  let legends :=
    match cfg_styles config with
    | Some styles =>
        fold_left (fun legends style => legends ++ [extractConfigFromStyle style])
                  styles legends
    | None => legends
    end in
  match cfg_configs config with
  | Some configs => configs ++ legends
  | None => legends
  end.

Definition viewBox (width height : JS.num) : AttrValue :=
  AStr ("0 0 " +:+ JS.toString width +:+ " " +:+ JS.toString height).

(** The frame appended to the target, lines 380-387. *)
Definition frame : Element :=
  let '(width, height) := size config in
  D3.attr "height" (ANum (JS.Num height))
    (D3.attr "width" (ANum (JS.Num width))
      (D3.attr "left" (ANum (JS.Num 0))
        (D3.attr "top" (ANum (JS.Num 0))
          (D3.attr "viewBox" (viewBox (JS.Num width) (JS.Num height))
            (D3.attr "class" (AStr "geostyler-legend-renderer")
              (D3.create "svg")))))).

(** One round of the loop over the legends, line 391. *)
Definition awaitRenderLegend
    (cur : PromiseState unit unit * Element * Position)
    (legend : LegendConfiguration)
    : PromiseState unit unit * Element * Position :=
  match cur with
  | (Fulfilled _, svg, position) => renderLegend ext config legend svg position
  | _ => cur
  end.

(** The placement of all legends and remote legends, lines 389-395. *)
Definition placeLegends : PromiseState unit unit * Element * Position :=
  let position : Position := (JS.Num 0, JS.Num 0) in
  match fold_left awaitRenderLegend legendList (Fulfilled tt, frame, position) with
  | (Fulfilled _, svg, position) =>
      match remoteLegends config with
      | Some remoteLegends =>
          let '(svg, position) := renderImages ext config remoteLegends svg position in
          (Fulfilled tt, svg, position)
      | None => (Fulfilled tt, svg, position)
      end
  | cur => cur
  end.

(** [render], lines 361-404; the result is the frame it resolves with. *)
Definition render (fuel : nat) : Outcome Element :=
  let '(width, height) := size config in
  match placeLegends with
  | (Fulfilled _, svg, position) =>
      match shortenLabels ext fuel svg (maxColumnWidth config) with
      | Completed svg =>
          if negb (JS.truthy (maxColumnHeight config))
          then Completed
                 (D3.attr "height" (ANum (snd position))
                   (D3.attr "viewBox" (viewBox (JS.Num width) (snd position)) svg))
          else Completed svg
      | Failed => Failed
      | Stalled => Stalled
      end
  | (Rejected _, _, _) => Failed
  | (Pending, _, _) => Stalled
  end.

End Render.


(** ** Vocabulary of the statements *)


(** A string that ends with a given suffix. *)
Definition endsWith (suffix str : string) : Prop :=
  exists front, str = front +:+ suffix.

(** The kinds [getGeometryForSymbolizer] has a case for. *)
Definition knownKinds : list string := ["Mark"; "Icon"; "Text"; "Fill"; "Line"].

(** ** Sample collaborators and configurations

    Concrete answers of the collaborators, used to run the renderer on
    explicit inputs. *)

Module Sample.

Definition fillRule : Rule := mkRule "Water" [mkSymbolizer "Fill" "#0000ff"].

Definition pngUri : string := "data:image/png;base64,iVBORw0KGgo=".

(** The group is as wide as its icon plus ten units per character of its
    label. *)
Definition labelWidth (node : Element) : Q :=
  match selectText (children node) with
  | Some str => inject_Z (46 + 10 * Z.of_nat (String.length str))
  | None => 0
  end.

(** An item group as [renderLegendItem] fills it at the cursor (0, 20). *)
Definition group (label : string) : Element :=
  let position : Position := (JS.Num 0, JS.Num 20) in
  D3.append (itemText position label)
    (D3.append (itemImage position pngUri)
      (D3.append (itemRect position)
        (legendItemGroup (mkItem (Some fillRule) label)))).

Definition fetchOne (url : string) : option Image :=
  if String.eqb url "https://example.org/legend.png"
  then Some (mkImage 120 80 "data:image/png;base64,UkVNT1RF")
  else None.

(** A translator that answers one concrete style, and a rasterizer that
    draws everything. *)
Definition working : Collaborators nat string :=
  mkCollaborators
    (fun _ => Some (mkWriteStyleResult (OStatic (SVStyle 1%nat)) None))
    (fun _ => true) (fun _ _ => true) (fun _ => Some pngUri)
    fetchOne labelWidth.

(** A translator that reports two errors and no style. *)
Definition reporting : Collaborators nat string :=
  mkCollaborators
    (fun _ => Some (mkWriteStyleResult (OStatic SVUndefined)
                      (Some ["unsupported symbolizer"; "second error"])))
    (fun _ => true) (fun _ _ => true) (fun _ => Some pngUri)
    fetchOne labelWidth.

(** A rasterizer that throws on every geometry. *)
Definition throwing : Collaborators nat string :=
  mkCollaborators
    (fun _ => Some (mkWriteStyleResult (OStatic (SVArray [1%nat; 2%nat])) (Some [])))
    (fun _ => true) (fun _ _ => false) (fun _ => Some pngUri)
    fetchOne labelWidth.

Definition lineRule : Rule := mkRule "Road" [mkSymbolizer "Line" "#333333"].

Definition hydro : Style := mkStyle (Some "Hydro") [fillRule; lineRule].

Definition lake : LegendItemConfiguration := mkItem (Some fillRule) "Lake".

Definition manual : LegendConfiguration :=
  mkLegend [mkItem (Some fillRule) "Lake"; mkItem None "Heading"] "Manual".

(** One configured legend, one style, one remote legend, no column limits. *)
Definition config : LegendsConfiguration :=
  mkConfig (Some [hydro]) (Some [manual])
           (Some [mkRemote "https://example.org/legend.png" "Remote"])
           (200, 100) None None None false.

(** Columns of height 100 and width 150, filled legend by legend. *)
Definition grouped : LegendsConfiguration :=
  mkConfig (Some [hydro]) (Some [manual]) None
           (200, 100) (Some 100) (Some 150) (Some OverflowGroup) false.

(** Columns of height 100 and width 150 under the policy [auto]. *)
Definition automatic : LegendsConfiguration :=
  mkConfig None None
           (Some [mkRemote "https://example.org/legend.png" "Remote"])
           (200, 100) (Some 100) (Some 150) (Some OverflowAuto) false.

(** A column height configured as zero. *)
Definition zeroHeight : LegendsConfiguration :=
  mkConfig None (Some [manual]) None (200, 100) (Some 0) (Some 150) None false.

End Sample.

(** ** Vocabulary of the further properties *)

(** All coordinates of a geometry. *)
Definition coordinates (geom : OlGeometry) : list coordinate :=
  match geom with
  | OlGeomPoint c => [c]
  | OlGeomPolygon rings => concat rings
  | OlGeomLineString cs => cs
  end.

(** A coordinate inside the icon box, borders included. *)
Definition insideIconBox (c : coordinate) : Prop :=
  (0 <= fst c <= iconW)%Q /\ (0 <= snd c <= iconH)%Q.

(** An item that has a rule. *)
Definition ruled (item : LegendItemConfiguration) : bool :=
  match item_rule item with
  | Some _ => true
  | None => false
  end.

(** An item whose icon is synthesized. *)
Definition iconAvailable {OlStyle Error : Type} (ext : Collaborators OlStyle Error)
    (item : LegendItemConfiguration) : bool :=
  match item_rule item with
  | Some rule =>
      match getRuleIcon ext rule with
      | Fulfilled _ => true
      | _ => false
      end
  | None => false
  end.

(** The rows a legend takes in an unbounded column: 20 for a title and 35
    for every item whose icon is synthesized. *)
Definition legendRows {OlStyle Error : Type} (ext : Collaborators OlStyle Error)
    (legend : LegendConfiguration) : Z :=
  (if bool_decide (title legend <> "") then 20 else 0)
  + 35 * Z.of_nat (length (List.filter (iconAvailable ext) (items legend))).

(** The rows a remote legend takes in an unbounded column: none when it
    cannot be fetched, else 25 for a title and the height of the image. *)
Definition remoteRows {OlStyle Error : Type} (ext : Collaborators OlStyle Error)
    (remote : RemoteLegend) : Z :=
  match fetchImage ext (url remote) with
  | Some img =>
      (if bool_decide (remote_title remote <> "") then 25 else 0) + img_height img
  | None => 0
  end.

Definition total (l : list Z) : Z := fold_right Z.add 0 l.

(** The value the style of the translator comes to for the geometries of a
    rule: itself, or what the style function answers for the first geometry
    at resolution 1. *)
Definition styleValue {OlStyle : Type} (olStyle : StyleOutput OlStyle)
    (geoms : list OlGeometry) : option (StyleValue OlStyle) :=
  match olStyle with
  | OStatic v => Some v
  | OFunction f => f (head geoms) 1
  end.

(** The concrete styles of a style value, in order. *)
Definition styleList {OlStyle : Type} (v : StyleValue OlStyle)
    : option (list OlStyle) :=
  match v with
  | SVUndefined => None
  | SVStyle s => Some [s]
  | SVArray l => Some l
  end.

(** A rule with two symbolizers. *)
Definition hydroRule : Rule :=
  mkRule "Shore" [mkSymbolizer "Fill" "#0000ff"; mkSymbolizer "Line" "#333333"].

(** A cursor made of numbers, in a column that starts at a multiple of the
    column width, at or below the top of the frame. *)
Definition aligned (width : Z) (position : Position) : Prop :=
  exists (n : nat) (y : Z),
    position = (JS.Num (Z.of_nat n * width), JS.Num y) /\ 0 <= y.

(** Columns of height 100 whose width was left out. *)
Definition heightOnly : LegendsConfiguration :=
  mkConfig (Some [Sample.hydro]) None None (200, 100) (Some 100) None None false.

(** * Theorems *)

(** Membership of a literal string in a literal list. *)
Ltac kind_in :=
  repeat first [ apply list_elem_of_here | apply list_elem_of_further ].
Ltac kind_notin :=
  let Hin := fresh "Hin" in
  intros Hin;
  repeat (apply elem_of_cons in Hin as [Hin|Hin]; [try discriminate Hin|]);
  try (apply elem_of_nil in Hin; exact Hin).

(** ** The symbol geometry mapper *)

Lemma getGeometryForSymbolizer_default (symbolizer : Symbolizer) :
  kind symbolizer ∉ ["Fill"; "Line"] ->
  getGeometryForSymbolizer symbolizer = OlGeomPoint (iconW / 2, iconH / 2)%Q.
Proof.
  intros Hk. unfold getGeometryForSymbolizer.
  destruct (String.eqb_spec (kind symbolizer) "Mark"); [done|].
  destruct (String.eqb_spec (kind symbolizer) "Icon"); [done|].
  destruct (String.eqb_spec (kind symbolizer) "Text"); [done|].
  destruct (String.eqb_spec (kind symbolizer) "Fill") as [E|_].
  { exfalso. apply Hk. rewrite E. kind_in. }
  destruct (String.eqb_spec (kind symbolizer) "Line") as [E|_].
  { exfalso. apply Hk. rewrite E. kind_in. }
  done.
Qed.

(** C7: for the kinds Mark, Icon and Text, and for every kind outside the
    known set, [getGeometryForSymbolizer] returns the point (22.5, 15), the
    centre of the 45x30 icon box, which is also what it returns for Mark; the
    function is total, so no kind makes it fail. *)
Theorem getGeometryForSymbolizer_center (symbolizer mark : Symbolizer) :
  kind symbolizer ∈ ["Mark"; "Icon"; "Text"] \/ kind symbolizer ∉ knownKinds ->
  kind mark = "Mark" ->
  (exists c, getGeometryForSymbolizer symbolizer = OlGeomPoint c
             /\ coord_eq c (22.5, 15)%Q)
  /\ getGeometryForSymbolizer symbolizer = getGeometryForSymbolizer mark.
Proof.
  intros Hk Hm.
  assert (Hs : kind symbolizer ∉ ["Fill"; "Line"]).
  { destruct Hk as [Hk|Hk].
    - intros Hin.
      repeat (apply elem_of_cons in Hk as [Hk|Hk];
              [rewrite Hk in Hin; revert Hin; kind_notin|]).
      by apply elem_of_nil in Hk.
    - intros Hin. apply Hk. unfold knownKinds.
      do 3 apply list_elem_of_further. exact Hin. }
  assert (Hm' : kind mark ∉ ["Fill"; "Line"]) by (rewrite Hm; kind_notin).
  rewrite (getGeometryForSymbolizer_default _ Hs),
          (getGeometryForSymbolizer_default _ Hm').
  split; [|done].
  eexists; split; [done|]. split; reflexivity.
Qed.

Lemma getGeometryForSymbolizer_center_witness :
  (exists c, getGeometryForSymbolizer (mkSymbolizer "Raster" "") = OlGeomPoint c
             /\ coord_eq c (22.5, 15)%Q)
  /\ getGeometryForSymbolizer (mkSymbolizer "Raster" "")
     = getGeometryForSymbolizer (mkSymbolizer "Mark" "wkn:circle").
Proof.
  apply (getGeometryForSymbolizer_center (mkSymbolizer "Raster" "")
                                         (mkSymbolizer "Mark" "wkn:circle")).
  - right. unfold knownKinds. simpl. kind_notin.
  - reflexivity.
Defined.

Lemma getGeometryForSymbolizer_Fill (symbolizer : Symbolizer) :
  kind symbolizer = "Fill" ->
  getGeometryForSymbolizer symbolizer
  = OlGeomPolygon [[ (3, 3); (42, 3); (42, 27); (3, 27); (3, 3) ]]%Q.
Proof. intros Hk. unfold getGeometryForSymbolizer. rewrite Hk. reflexivity. Qed.

Lemma getGeometryForSymbolizer_Line (symbolizer : Symbolizer) :
  kind symbolizer = "Line" ->
  getGeometryForSymbolizer symbolizer
  = OlGeomLineString [ (iconW / 6, iconH / 6); (iconW / 3, iconH / 3 * 2);
                       (iconW / 2, iconH / 3); (iconW / 6 * 5, iconH / 6 * 5) ]%Q.
Proof. intros Hk. unfold getGeometryForSymbolizer. rewrite Hk. reflexivity. Qed.

(** C8: on a Fill symbolizer [getGeometryForSymbolizer] returns a polygon of
    one ring that is closed (it ends where it starts) and whose vertices are
    exactly (3,3), (42,3), (42,27) and (3,27); on a Line symbolizer it returns
    a line string of 4 points that starts at (7.5, 5) and ends at (37.5, 25). *)
Theorem getGeometryForSymbolizer_fill_line (fill line : Symbolizer) :
  kind fill = "Fill" ->
  kind line = "Line" ->
  (exists ring,
      getGeometryForSymbolizer fill = OlGeomPolygon [ring]
      /\ is_Some (head ring) /\ head ring = last ring
      /\ forall c : coordinate,
           c ∈ ring <-> c ∈ [ (3, 3); (42, 3); (42, 27); (3, 27) ]%Q)
  /\ (exists cs first final,
         getGeometryForSymbolizer line = OlGeomLineString cs
         /\ length cs = 4%nat
         /\ head cs = Some first /\ coord_eq first (7.5, 5)%Q
         /\ last cs = Some final /\ coord_eq final (37.5, 25)%Q).
Proof.
  intros Hf Hl. split.
  - eexists. split; [exact (getGeometryForSymbolizer_Fill _ Hf)|].
    split; [by eexists|]. split; [reflexivity|].
    intros c. rewrite !elem_of_cons, !elem_of_nil. tauto.
  - do 3 eexists. split; [exact (getGeometryForSymbolizer_Line _ Hl)|].
    split; [reflexivity|]. split; [reflexivity|].
    split; [split; reflexivity|]. split; [reflexivity|]. split; reflexivity.
Qed.

Lemma getGeometryForSymbolizer_fill_line_witness :
  (exists ring,
      getGeometryForSymbolizer (mkSymbolizer "Fill" "#ff0000") = OlGeomPolygon [ring]
      /\ is_Some (head ring) /\ head ring = last ring
      /\ forall c : coordinate,
           c ∈ ring <-> c ∈ [ (3, 3); (42, 3); (42, 27); (3, 27) ]%Q)
  /\ (exists cs first final,
         getGeometryForSymbolizer (mkSymbolizer "Line" "dash") = OlGeomLineString cs
         /\ length cs = 4%nat
         /\ head cs = Some first /\ coord_eq first (7.5, 5)%Q
         /\ last cs = Some final /\ coord_eq final (37.5, 25)%Q).
Proof.
  apply (getGeometryForSymbolizer_fill_line (mkSymbolizer "Fill" "#ff0000")
                                            (mkSymbolizer "Line" "dash"));
    reflexivity.
Defined.

(** ** The icon synthesizer *)

Section IconSynthesizerFacts.

Context {OlStyle Error : Type}.
Context (ext : Collaborators OlStyle Error).

Lemma keeps_ret {A} (a : A) : keepsSettlement (ret (OlStyle:=OlStyle) (Error:=Error) a).
Proof. intros st. reflexivity. Qed.

Lemma keeps_await {A} (p : option A) :
  keepsSettlement (await (OlStyle:=OlStyle) (Error:=Error) p).
Proof. intros st. destruct p; reflexivity. Qed.

Lemma keeps_bind {A B} (m : Exec A) (k : A -> Exec B) :
  keepsSettlement (OlStyle:=OlStyle) (Error:=Error) m ->
  (forall a, keepsSettlement (k a)) ->
  keepsSettlement (bind m k).
Proof.
  intros Hm Hk st. unfold bind. specialize (Hm st).
  destruct (m st) as [[a|] st']; simpl in *; [|done].
  rewrite (Hk a st'). done.
Qed.

Lemma keeps_setStyle v : keepsSettlement (setStyle ext v).
Proof.
  intros st. unfold setStyle. destruct v as [s|]; [|done].
  destruct (setStyle_ok ext s); done.
Qed.

Lemma keeps_drawGeometry geom : keepsSettlement (drawGeometry ext geom).
Proof.
  intros st. unfold drawGeometry. destruct (current st) as [s|]; [|done].
  destruct (drawGeometry_ok ext s geom); done.
Qed.

Lemma keeps_forEach {A} (f : A -> Exec unit) (l : list A) :
  (forall a, keepsSettlement (OlStyle:=OlStyle) (Error:=Error) (f a)) ->
  keepsSettlement (forEach f l).
Proof.
  intros Hf. induction l as [|x l IH]; simpl.
  - apply keeps_ret.
  - apply keeps_bind; [apply Hf|]. intros _. exact IH.
Qed.

Lemma keeps_drawStyles olStyle geoms : keepsSettlement (drawStyles ext olStyle geoms).
Proof.
  unfold drawStyles. apply keeps_bind.
  - destruct olStyle; [apply keeps_ret|apply keeps_await].
  - assert (Hd : keepsSettlement (forEach (drawGeometry ext) geoms))
      by (apply keeps_forEach, keeps_drawGeometry).
    intros [|s|l].
    + apply keeps_bind; [apply keeps_setStyle|]. intros _. exact Hd.
    + apply keeps_bind; [apply keeps_setStyle|]. intros _. exact Hd.
    + apply keeps_forEach. intros a.
      apply keeps_bind; [apply keeps_setStyle|]. intros _. exact Hd.
Qed.

(** Once the promise is rejected with the first error, nothing the executor
    does afterwards settles it differently. *)
Lemma getRuleIcon_errors (rule : Rule) r e es :
  writeStyle ext (ruleStyle rule) = Some r ->
  errors r = Some (e :: es) ->
  getRuleIcon ext rule = Rejected (Some e).
Proof.
  intros Hw He. unfold getRuleIcon, tryCatch, executor, bind at 1.
  rewrite Hw. simpl. rewrite He. simpl.
  unfold bind at 1. simpl. unfold bind at 1.
  pose proof (keeps_drawStyles (output r) (ruleGeoms rule)
                (mkExecState (Some (Rejected (Some e))) None [])) as Hk.
  destruct (drawStyles ext (output r) (ruleGeoms rule) _) as [[[]|] st1];
    simpl in Hk.
  - unfold bind, canvasToDataURL.
    destruct (toDataURL ext (canvas st1)) as [uri|]; simpl.
    + unfold resolve, settle. rewrite Hk; simpl; rewrite ?Hk; done.
    + unfold reject, settle. rewrite Hk; simpl; rewrite ?Hk; done.
  - unfold reject, settle. rewrite Hk; simpl; rewrite ?Hk; done.
Qed.

(** Without reported errors the promise is still pending when the [try]
    block throws, and fulfilled with the exported canvas when it ends. *)
Lemma executor_no_errors (rule : Rule) o st :
  reportedErrors ext rule = [] ->
  executor ext (ruleStyle rule) (ruleGeoms rule) freshState = (o, st) ->
  match o with
  | None => settled st = None
  | Some _ => exists uri, toDataURL ext (canvas st) = Some uri
                          /\ settled st = Some (Fulfilled uri)
  end.
Proof.
  unfold reportedErrors, executor, bind at 1.
  destruct (writeStyle ext (ruleStyle rule)) as [r|]; simpl.
  2:{ intros _ [= <- <-]. done. }
  intros ->. simpl. unfold bind at 1. simpl. unfold bind at 1.
  pose proof (keeps_drawStyles (output r) (ruleGeoms rule) freshState) as Hk.
  destruct (drawStyles ext (output r) (ruleGeoms rule) _) as [[[]|] st1];
    simpl in Hk.
  2:{ intros [= <- <-]. done. }
  unfold bind, canvasToDataURL.
  destruct (toDataURL ext (canvas st1)) as [uri|] eqn:Hu; simpl.
  2:{ intros [= <- <-]. done. }
  unfold resolve, settle. rewrite Hk. intros [= <- <-]. simpl. eauto.
Qed.

Lemma getRuleIcon_no_errors (rule : Rule) :
  reportedErrors ext rule = [] ->
  match executor ext (ruleStyle rule) (ruleGeoms rule) freshState with
  | (None, _) => getRuleIcon ext rule = Rejected None
  | (Some _, st) =>
      exists uri, toDataURL ext (canvas st) = Some uri
                  /\ getRuleIcon ext rule = Fulfilled uri
  end.
Proof.
  intros He. unfold getRuleIcon, tryCatch.
  destruct (executor ext (ruleStyle rule) (ruleGeoms rule) freshState)
    as [o st] eqn:Hx.
  pose proof (executor_no_errors rule o st He Hx) as Hs.
  destruct o as [[]|].
  - destruct Hs as (uri & Hu & Hs). exists uri. rewrite Hs. done.
  - unfold reject, settle. rewrite Hs. done.
Qed.

End IconSynthesizerFacts.

Lemma getRuleIcon_reported {OlStyle Error : Type}
    (ext : Collaborators OlStyle Error) (rule : Rule) e es :
  reportedErrors ext rule = e :: es ->
  getRuleIcon ext rule = Rejected (Some e).
Proof.
  unfold reportedErrors.
  destruct (writeStyle ext (ruleStyle rule)) as [r|] eqn:Hw; [|done].
  destruct (errors r) as [l|] eqn:He; simpl; [|done].
  intros ->. by apply (getRuleIcon_errors ext rule r e es).
Qed.

(** C4: the promise of [getRuleIcon] rejects with the first reported error
    whenever the translator reports any; without reported errors it rejects
    with no payload when the [try] block fails, and it fulfills with the data
    URI exported from the canvas when the block runs to its end. *)
Theorem getRuleIcon_settles {OlStyle Error : Type}
    (ext : Collaborators OlStyle Error) (rule : Rule) :
  (forall e es, reportedErrors ext rule = e :: es ->
                getRuleIcon ext rule = Rejected (Some e))
  /\ (reportedErrors ext rule = [] ->
      fst (executor ext (ruleStyle rule) (ruleGeoms rule) freshState) = None ->
      getRuleIcon ext rule = Rejected None)
  /\ (reportedErrors ext rule = [] ->
      fst (executor ext (ruleStyle rule) (ruleGeoms rule) freshState) = Some tt ->
      exists uri,
        toDataURL ext
          (canvas (snd (executor ext (ruleStyle rule) (ruleGeoms rule) freshState)))
        = Some uri
        /\ getRuleIcon ext rule = Fulfilled uri).
Proof.
  split; [|split].
  - intros e es. apply getRuleIcon_reported.
  - intros He Hx. pose proof (getRuleIcon_no_errors ext rule He) as Hs.
    destruct (executor _ _ _ _) as [[|] st]; [done|exact Hs].
  - intros He Hx. pose proof (getRuleIcon_no_errors ext rule He) as Hs.
    destruct (executor _ _ _ _) as [[|] st]; [exact Hs|done].
Qed.

Lemma getRuleIcon_settles_witness :
  getRuleIcon Sample.reporting Sample.fillRule
  = Rejected (Some "unsupported symbolizer")
  /\ getRuleIcon Sample.throwing Sample.fillRule = Rejected None
  /\ exists uri,
       toDataURL Sample.working
         (canvas (snd (executor Sample.working (ruleStyle Sample.fillRule)
                         (ruleGeoms Sample.fillRule) freshState)))
       = Some uri
       /\ getRuleIcon Sample.working Sample.fillRule = Fulfilled uri.
Proof.
  split; [|split].
  - apply (proj1 (getRuleIcon_settles Sample.reporting Sample.fillRule)
             "unsupported symbolizer" ["second error"]).
    reflexivity.
  - apply (proj1 (proj2 (getRuleIcon_settles Sample.throwing Sample.fillRule)));
      reflexivity.
  - apply (proj2 (proj2 (getRuleIcon_settles Sample.working Sample.fillRule)));
      reflexivity.
Defined.

(** ** The legend list *)

(** A [forEach] that pushes one element per entry builds the mapped array. *)
Lemma fold_left_push {A B} (f : A -> B) (l : list A) (acc : list B) :
  fold_left (fun acc x => acc ++ [f x]) l acc = acc ++ map f l.
Proof.
  revert acc. induction l as [|x l IH]; intros acc; simpl.
  - by rewrite app_nil_r.
  - rewrite IH, <- app_assoc. done.
Qed.

Lemma push_items (l : list Rule) (config : LegendConfiguration) :
  fold_left (fun config rule =>
               mkLegend (items config ++ [mkItem (Some rule) (rule_name rule)])
                        (title config)) l config
  = mkLegend (items config
              ++ map (fun rule => mkItem (Some rule) (rule_name rule)) l)
             (title config).
Proof.
  revert config. induction l as [|rule l IH]; intros [its t]; simpl.
  - by rewrite app_nil_r.
  - rewrite IH. simpl. by rewrite <- app_assoc.
Qed.

Lemma extractConfigFromStyle_items (style : Style) :
  items (extractConfigFromStyle style)
  = map (fun rule => mkItem (Some rule) (rule_name rule)) (rules style).
Proof.
  unfold extractConfigFromStyle. rewrite push_items. simpl.
  destruct (style_name style) as [name|]; [|done].
  by destruct (bool_decide (name <> "")).
Qed.

Lemma extractConfigFromStyle_title (style : Style) :
  title (extractConfigFromStyle style) = default "" (style_name style).
Proof.
  unfold extractConfigFromStyle. rewrite push_items. simpl.
  destruct (style_name style) as [name|]; [|done].
  destruct (decide (name = "")) as [->|Hn]; [done|].
  by rewrite bool_decide_true.
Qed.

Lemma legendList_eq (config : LegendsConfiguration) :
  legendList config
  = default [] (cfg_configs config)
    ++ map extractConfigFromStyle (default [] (cfg_styles config)).
Proof.
  unfold legendList.
  destruct (cfg_styles config) as [styles|], (cfg_configs config) as [configs|];
    simpl; rewrite ?fold_left_push; done.
Qed.

(** C5: the legend list of [render] holds the configured legends first, in
    their order, then one legend per style in the order of the styles; the
    legend of a style is titled by the name of the style (empty when it has
    none) and has one item per rule, in rule order, titled by the name of its
    rule and carrying the rule. *)
Theorem legendList_order (config : LegendsConfiguration) :
  let configs := default [] (cfg_configs config) in
  let styles := default [] (cfg_styles config) in
  legendList config = configs ++ map extractConfigFromStyle styles
  /\ (forall (i : nat) legend,
        configs !! i = Some legend -> legendList config !! i = Some legend)
  /\ (forall (j : nat) style,
        styles !! j = Some style ->
        legendList config !! (length configs + j)%nat
        = Some (extractConfigFromStyle style))
  /\ (forall style,
        title (extractConfigFromStyle style) = default "" (style_name style)
        /\ items (extractConfigFromStyle style)
           = map (fun rule => mkItem (Some rule) (rule_name rule)) (rules style)).
Proof.
  intros configs styles. rewrite legendList_eq. fold configs styles.
  split; [done|]. split; [|split].
  - intros i legend Hi. by apply lookup_app_l_Some.
  - intros j style Hj. rewrite lookup_app_r by lia.
    replace (length configs + j - length configs)%nat with j by lia.
    by rewrite list_lookup_fmap, Hj.
  - intros style. split.
    + apply extractConfigFromStyle_title.
    + apply extractConfigFromStyle_items.
Qed.

Lemma legendList_order_witness :
  legendList Sample.config
  = [Sample.manual;
     mkLegend [mkItem (Some Sample.fillRule) "Water";
               mkItem (Some Sample.lineRule) "Road"] "Hydro"].
Proof.
  rewrite (proj1 (legendList_order Sample.config)). reflexivity.
Defined.

(** ** Legend items *)

Section LegendItemFacts.

Context {OlStyle Error : Type}.
Context (ext : Collaborators OlStyle Error).
Context (config : LegendsConfiguration).

(** The group of an item is created empty. *)
Lemma legendItemGroup_children (item : LegendItemConfiguration) :
  children (legendItemGroup item) = [].
Proof. reflexivity. Qed.

Lemma renderLegendItem_rejected container item position rule e :
  item_rule item = Some rule ->
  getRuleIcon ext rule = Rejected e ->
  renderLegendItem ext config container item position
  = (RetPromise (Fulfilled tt), D3.append (legendItemGroup item) container, position).
Proof. intros Hr Hi. unfold renderLegendItem. by rewrite Hr, Hi. Qed.

Lemma renderLegendItem_no_rule container item position :
  item_rule item = None ->
  renderLegendItem ext config container item position
  = (RetUndefined, container, position).
Proof. intros Hr. unfold renderLegendItem. by rewrite Hr. Qed.

End LegendItemFacts.

(** C10: for an item without a rule [renderLegendItem] returns [undefined]
    at once; the container is left as it is, so neither a group nor the title
    of the item is appended, and the cursor is unchanged.  The promise chain
    of the legend goes on from the same frame and cursor. *)
Theorem renderLegendItem_without_rule {OlStyle Error : Type}
    (ext : Collaborators OlStyle Error) (config : LegendsConfiguration)
    (container : Element) (item : LegendItemConfiguration) (position : Position) :
  item_rule item = None ->
  renderLegendItem ext config container item position
  = (RetUndefined, container, position)
  /\ thenRenderLegendItem ext config (Fulfilled tt, container, position) item
     = (Fulfilled tt, container, position).
Proof.
  intros Hr. split.
  - by apply renderLegendItem_no_rule.
  - unfold thenRenderLegendItem. by rewrite renderLegendItem_no_rule.
Qed.

Lemma renderLegendItem_without_rule_witness :
  renderLegendItem Sample.working Sample.config (frame Sample.config)
    (mkItem None "Heading") (JS.Num 0, JS.Num 20)
  = (RetUndefined, frame Sample.config, (JS.Num 0, JS.Num 20))
  /\ thenRenderLegendItem Sample.working Sample.config
       (Fulfilled tt, frame Sample.config, (JS.Num 0, JS.Num 20))
       (mkItem None "Heading")
     = (Fulfilled tt, frame Sample.config, (JS.Num 0, JS.Num 20)).
Proof.
  apply (renderLegendItem_without_rule Sample.working Sample.config
           (frame Sample.config) (mkItem None "Heading") (JS.Num 0, JS.Num 20)).
  reflexivity.
Defined.

(** C1, as stated, fails: when the icon of an item is rejected the cursor
    stays where it was, while the same item with a synthesized icon moves it
    down by 35. *)
Lemma renderLegendItem_rejected_counterexample :
  getRuleIcon Sample.reporting Sample.fillRule
  = Rejected (Some "unsupported symbolizer")
  /\ snd (renderLegendItem Sample.reporting Sample.config
            (frame Sample.config) Sample.lake (JS.Num 0, JS.Num 20))
     = (JS.Num 0, JS.Num 20)
  /\ snd (renderLegendItem Sample.working Sample.config
            (frame Sample.config) Sample.lake (JS.Num 0, JS.Num 20))
     = (JS.Num 0, JS.Num 55)
  /\ snd (snd (renderLegendItem Sample.reporting Sample.config
                 (frame Sample.config) Sample.lake (JS.Num 0, JS.Num 20)))
     <> JS.add (JS.Num 20) (JS.Num (snd iconSize + 5)).
Proof.
  repeat split; try reflexivity. simpl. discriminate.
Qed.

(** C1, amended: when the icon of an item is rejected, [renderLegendItem]
    appends only the empty group of the item, so no rectangle, image or label
    is drawn; the promise it returns is fulfilled, so the chain goes on with
    the next item; the cursor is left unchanged. *)
Theorem renderLegendItem_icon_rejected {OlStyle Error : Type}
    (ext : Collaborators OlStyle Error) (config : LegendsConfiguration)
    (container : Element) (item : LegendItemConfiguration) (position : Position)
    (rule : Rule) (e : option Error) :
  item_rule item = Some rule ->
  getRuleIcon ext rule = Rejected e ->
  renderLegendItem ext config container item position
  = (RetPromise (Fulfilled tt), D3.append (legendItemGroup item) container, position)
  /\ children (legendItemGroup item) = []
  /\ thenRenderLegendItem ext config (Fulfilled tt, container, position) item
     = (Fulfilled tt, D3.append (legendItemGroup item) container, position).
Proof.
  intros Hr Hi. split; [|split].
  - by apply renderLegendItem_rejected with rule e.
  - reflexivity.
  - unfold thenRenderLegendItem.
    by rewrite (renderLegendItem_rejected ext config _ _ _ rule e).
Qed.

Lemma renderLegendItem_icon_rejected_witness :
  renderLegendItem Sample.reporting Sample.config (frame Sample.config)
    Sample.lake (JS.Num 0, JS.Num 20)
  = (RetPromise (Fulfilled tt),
     D3.append (legendItemGroup Sample.lake) (frame Sample.config),
     (JS.Num 0, JS.Num 20))
  /\ children (legendItemGroup Sample.lake) = []
  /\ thenRenderLegendItem Sample.reporting Sample.config
       (Fulfilled tt, frame Sample.config, (JS.Num 0, JS.Num 20)) Sample.lake
     = (Fulfilled tt, D3.append (legendItemGroup Sample.lake) (frame Sample.config),
        (JS.Num 0, JS.Num 20)).
Proof.
  apply (renderLegendItem_icon_rejected Sample.reporting Sample.config
           (frame Sample.config) Sample.lake
           (JS.Num 0, JS.Num 20) Sample.fillRule (Some "unsupported symbolizer"));
    reflexivity.
Defined.

(** ** Column breaks *)



Lemma strictEq_false (a : JS.num) (z : Z) :
  a <> JS.Num z -> JS.strictEq a (JS.Num z) = false.
Proof.
  destruct a as [x|]; simpl; [|done].
  intros Hn. apply bool_decide_eq_false. congruence.
Qed.

Section LayoutFacts.

Context {OlStyle Error : Type}.
Context (ext : Collaborators OlStyle Error).
Context (config : LegendsConfiguration).

(** An item only appends to the frame; what is there stays in place. *)
Lemma renderLegendItem_children container item position :
  exists groups,
    children (snd (fst (renderLegendItem ext config container item position)))
    = children container ++ groups.
Proof.
  unfold renderLegendItem. destruct (item_rule item) as [rule|].
  - destruct (getRuleIcon ext rule); destruct container; simpl; eauto.
  - exists []. by rewrite app_nil_r.
Qed.

Lemma thenRenderLegendItem_children cur item :
  exists groups,
    children (snd (fst (thenRenderLegendItem ext config cur item)))
    = children (snd (fst cur)) ++ groups.
Proof.
  destruct cur as [[p svg] position]. unfold thenRenderLegendItem.
  destruct p as [|[]|e]; simpl; try (exists []; by rewrite app_nil_r).
  destruct (renderLegendItem_children svg item position) as [groups Hg].
  destruct (renderLegendItem ext config svg item position) as [[r svg'] position'].
  simpl in Hg. destruct r; simpl; eauto.
Qed.

Lemma items_children (l : list LegendItemConfiguration) cur :
  exists groups,
    children (snd (fst (fold_left (thenRenderLegendItem ext config) l cur)))
    = children (snd (fst cur)) ++ groups.
Proof.
  revert cur. induction l as [|item l IH]; intros cur; simpl.
  - exists []. by rewrite app_nil_r.
  - destruct (IH (thenRenderLegendItem ext config cur item)) as [g2 H2].
    destruct (thenRenderLegendItem_children cur item) as [g1 H1].
    exists (g1 ++ g2). by rewrite H2, H1, app_assoc.
Qed.

(** The frame after a legend: what it held, the group of the title placed
    at the cursor left by the column break, then the groups of the items. *)
Lemma renderLegend_children legend svg position :
  exists groups,
    children (snd (fst (renderLegend ext config legend svg position)))
    = children svg
      ++ fst (placeTitle legend (D3.create "g")
                (columnBreakBefore config legend position))
      :: groups.
Proof.
  unfold renderLegend.
  destruct (placeTitle legend (D3.create "g") _) as [container position'] eqn:Ht.
  destruct (items_children (items legend)
              (Fulfilled tt, D3.append container svg, position')) as [groups Hg].
  exists groups. rewrite Hg. destruct svg; simpl. by rewrite <- app_assoc.
Qed.

End LayoutFacts.



(** ** Remote legends *)

Section RemoteFacts.

Context {OlStyle Error : Type}.
Context (ext : Collaborators OlStyle Error).
Context (config : LegendsConfiguration).



End RemoteFacts.



(** ** The label fitter *)

Lemma prefix_length (n : nat) (s : string) :
  String.length (String.substring 0 n s) = Nat.min n (String.length s).
Proof.
  revert n. induction s as [|c s IH]; intros [|n]; simpl; try done.
  by rewrite IH.
Qed.

Lemma prefix_prefix (m n : nat) (s : string) :
  String.substring 0 m (String.substring 0 n s)
  = String.substring 0 (Nat.min m n) s.
Proof.
  revert m n. induction s as [|c s IH]; intros [|m] [|n]; simpl; try done.
  by rewrite IH.
Qed.

Lemma prefix_all (s : string) : String.substring 0 (String.length s) s = s.
Proof. induction s as [|c s IH]; simpl; [done|]. by rewrite IH. Qed.

Lemma append_length (s t : string) :
  String.length (s +:+ t) = (String.length s + String.length t)%nat.
Proof. induction s as [|c s IH]; simpl; [done|]. by rewrite IH. Qed.

(** Cutting [d] characters off the prefix of length [i]. *)
Lemma substring0_shorten (i d : Z) (s : string) :
  i <= Z.of_nat (String.length s) -> 0 <= d ->
  JS.substring0 (Z.of_nat (String.length (JS.substring0 i s)) - d)
                (JS.substring0 i s)
  = JS.substring0 (i - d) s.
Proof.
  intros Hi Hd. unfold JS.substring0. rewrite prefix_length, prefix_prefix.
  f_equal. lia.
Qed.

Lemma substring0_length (i : Z) (s : string) :
  i <= Z.of_nat (String.length s) ->
  Z.of_nat (String.length (JS.substring0 i s)) = Z.max 0 i.
Proof. intros Hi. unfold JS.substring0. rewrite prefix_length. lia. Qed.

Lemma substring0_all (s : string) :
  JS.substring0 (Z.of_nat (String.length s)) s = s.
Proof. unfold JS.substring0. rewrite Nat2Z.id. apply prefix_all. Qed.

Lemma selectText_setText (str : string) (nodes : list Element) :
  is_Some (selectText nodes) -> selectText (setText str nodes) = Some str.
Proof.
  induction nodes as [|e nodes IH]; simpl.
  - by intros [? ?].
  - destruct (String.eqb (tag e) "text") eqn:Ht; simpl.
    + intros _. destruct e; simpl in *. by rewrite Ht.
    + rewrite Ht. exact IH.
Qed.

Lemma setText_setText (s1 s2 : string) (nodes : list Element) :
  setText s2 (setText s1 nodes) = setText s2 nodes.
Proof.
  induction nodes as [|e nodes IH]; simpl; [done|].
  destruct (String.eqb (tag e) "text") eqn:Ht; simpl.
  - destruct e; simpl in *. by rewrite Ht.
  - by rewrite Ht, IH.
Qed.

Lemma setText_same (str : string) (nodes : list Element) :
  selectText nodes = Some str -> setText str nodes = nodes.
Proof.
  induction nodes as [|e nodes IH]; simpl; [done|].
  destruct (String.eqb (tag e) "text") eqn:Ht.
  - intros [= <-]. by destruct e.
  - intros Hs. by rewrite IH.
Qed.

Lemma nodeText_nodeSetText (str s : string) (node : Element) :
  nodeText node = Completed s -> nodeText (nodeSetText str node) = Completed str.
Proof.
  unfold nodeText. destruct node as [t a st x c]; simpl.
  destruct (selectText c) as [s'|] eqn:Hs; [|done]. intros _.
  rewrite selectText_setText; [done|]. rewrite Hs. by eexists.
Qed.

Lemma nodeSetText_nodeSetText (s1 s2 : string) (node : Element) :
  nodeSetText s2 (nodeSetText s1 node) = nodeSetText s2 node.
Proof. destruct node; simpl. by rewrite setText_setText. Qed.

Lemma nodeSetText_same (s : string) (node : Element) :
  nodeText node = Completed s -> nodeSetText s node = node.
Proof.
  unfold nodeText. destruct node as [t a st x c]; simpl.
  destruct (selectText c) as [s'|] eqn:Hs; [|done].
  intros [= <-]. by rewrite setText_same.
Qed.

Section LabelFitterFacts.

Context {OlStyle Error : Type}.
Context (ext : Collaborators OlStyle Error).

(** A group that fits is returned as it is, whatever the fuel. *)
Lemma shortenLabel_fitting fuel maxWidth node :
  wider ext node maxWidth = false ->
  shortenLabel ext fuel maxWidth node = Completed node.
Proof.
  intros Hw. unfold shortenLabel. destruct fuel; simpl; by rewrite Hw.
Qed.

(** The loop from the prefix that lost [j] characters to the first prefix
    that fits, the one that lost [k]. *)
Lemma shortenLoop_run (node : Element) (s : string) (maxWidth : option Z)
    (k : nat) :
  nodeText node = Completed s ->
  (k <= String.length s)%nat ->
  (forall j, (j < k)%nat ->
     wider ext (nodeSetText
                  (JS.substring0 (Z.of_nat (String.length s) - Z.of_nat j) s) node)
           maxWidth = true) ->
  wider ext (nodeSetText
               (JS.substring0 (Z.of_nat (String.length s) - Z.of_nat k) s) node)
        maxWidth = false ->
  forall d j fuel adapted,
    (j + d = k)%nat -> (d <= fuel)%nat ->
    shortenLoop ext fuel maxWidth
      (nodeSetText (JS.substring0 (Z.of_nat (String.length s) - Z.of_nat j) s) node)
      adapted
    = Completed
        (nodeSetText (JS.substring0 (Z.of_nat (String.length s) - Z.of_nat k) s) node,
         adapted || negb (Nat.eqb d 0)).
Proof.
  intros Ht Hk Hwide Hfit. induction d as [|d IH]; intros j fuel adapted Hj Hf.
  - replace j with k by lia. destruct fuel; simpl; rewrite Hfit;
      by rewrite orb_false_r.
  - destruct fuel as [|fuel]; [lia|]. simpl.
    rewrite Hwide by lia.
    rewrite (nodeText_nodeSetText _ s) by done.
    rewrite substring0_shorten by lia.
    rewrite nodeSetText_nodeSetText.
    replace (Z.of_nat (String.length s) - Z.of_nat j - 1)
      with (Z.of_nat (String.length s) - Z.of_nat (S j)) by lia.
    rewrite (IH (S j) fuel true) by lia. by rewrite orb_true_r.
Qed.

End LabelFitterFacts.




(** ** The frame *)

Section RenderFacts.

Context {OlStyle Error : Type}.
Context (ext : Collaborators OlStyle Error).
Context (config : LegendsConfiguration).

(** The promise of [getRuleIcon] is settled when its executor returns. *)
Lemma getRuleIcon_not_pending (rule : Rule) : getRuleIcon ext rule <> Pending.
Proof.
  destruct (reportedErrors ext rule) as [|e es] eqn:He.
  - pose proof (getRuleIcon_no_errors ext rule He) as Hs.
    destruct (executor _ _ _ _) as [[|] st].
    + destruct Hs as (uri & _ & ->). done.
    + by rewrite Hs.
  - by rewrite (getRuleIcon_reported ext rule e es He).
Qed.

Lemma append_attrs (child parent : Element) :
  attrs (D3.append child parent) = attrs parent.
Proof. by destruct parent. Qed.

(** A link of the chain that starts fulfilled ends fulfilled, and only the
    children of the frame change. *)
Lemma thenRenderLegendItem_fulfilled svg position item :
  exists svg' position',
    thenRenderLegendItem ext config (Fulfilled tt, svg, position) item
    = (Fulfilled tt, svg', position')
    /\ attrs svg' = attrs svg.
Proof.
  unfold thenRenderLegendItem, renderLegendItem.
  destruct (item_rule item) as [rule|]; [|by eauto].
  pose proof (getRuleIcon_not_pending rule) as Hp.
  destruct (getRuleIcon ext rule) as [|uri|e]; [done| |];
    do 2 eexists; (split; [reflexivity|apply append_attrs]).
Qed.

Lemma items_fulfilled (l : list LegendItemConfiguration) svg position :
  exists svg' position',
    fold_left (thenRenderLegendItem ext config) l (Fulfilled tt, svg, position)
    = (Fulfilled tt, svg', position')
    /\ attrs svg' = attrs svg.
Proof.
  revert svg position.
  induction l as [|item l IH]; intros svg position; cbn [fold_left].
  - by eauto.
  - destruct (thenRenderLegendItem_fulfilled svg position item)
      as (svg1 & p1 & -> & Ha1).
    destruct (IH svg1 p1) as (svg2 & p2 & -> & Ha2).
    do 2 eexists. split; [reflexivity|]. by rewrite Ha2.
Qed.

Lemma renderLegend_fulfilled legend svg position :
  exists svg' position',
    renderLegend ext config legend svg position = (Fulfilled tt, svg', position')
    /\ attrs svg' = attrs svg.
Proof.
  unfold renderLegend.
  destruct (placeTitle legend (D3.create "g") _) as [container p].
  destruct (items_fulfilled (items legend) (D3.append container svg) p)
    as (svg' & p' & -> & Ha).
  do 2 eexists. split; [reflexivity|]. by rewrite Ha, append_attrs.
Qed.

Lemma legends_fulfilled (l : list LegendConfiguration) svg position :
  exists svg' position',
    fold_left (awaitRenderLegend ext config) l (Fulfilled tt, svg, position)
    = (Fulfilled tt, svg', position')
    /\ attrs svg' = attrs svg.
Proof.
  revert svg position.
  induction l as [|legend l IH]; intros svg position; cbn [fold_left].
  - by eauto.
  - unfold awaitRenderLegend at 2.
    destruct (renderLegend_fulfilled legend svg position)
      as (svg1 & p1 & -> & Ha1).
    destruct (IH svg1 p1) as (svg2 & p2 & -> & Ha2).
    do 2 eexists. split; [reflexivity|]. by rewrite Ha2.
Qed.

Lemma renderImage_attrs cur remote :
  attrs (fst (renderImage ext config cur remote)) = attrs (fst cur).
Proof.
  destruct cur as [svg position]. unfold renderImage.
  destruct (fetchImage ext (url remote)) as [img|]; [|done].
  destruct (_ && _); destruct (bool_decide (remote_title remote <> ""));
    simpl; by rewrite ?append_attrs.
Qed.

Lemma renderImages_attrs (l : list RemoteLegend) svg position :
  attrs (fst (renderImages ext config l svg position))
  = <["xmlns" := AStr "http://www.w3.org/2000/svg"]> (attrs svg).
Proof.
  unfold renderImages.
  assert (Hf : forall cur, attrs (fst (fold_left (renderImage ext config) l cur))
                           = attrs (fst cur)).
  { induction l as [|remote l IH]; intros cur; simpl; [done|].
    by rewrite IH, renderImage_attrs. }
  specialize (Hf (svg, position)).
  destruct (fold_left _ l _) as [svg' p']. simpl in *.
  destruct svg'; simpl in *. by rewrite Hf.
Qed.

(** The placement always completes, and it leaves the size and the view box
    of the frame alone. *)
Lemma placeLegends_fulfilled :
  exists placed position,
    placeLegends ext config = (Fulfilled tt, placed, position)
    /\ forall name, name <> "xmlns" -> attrs placed !! name = attrs (frame config) !! name.
Proof.
  unfold placeLegends.
  destruct (legends_fulfilled (legendList config) (frame config)
              (JS.Num 0, JS.Num 0)) as (svg & p & -> & Ha).
  destruct (remoteLegends config) as [l|].
  - pose proof (renderImages_attrs l svg p) as Hr.
    destruct (renderImages ext config l svg p) as [svg' p']. simpl in Hr.
    do 2 eexists. split; [reflexivity|].
    intros name Hn. by rewrite Hr, lookup_insert_ne, Ha.
  - do 2 eexists. split; [reflexivity|]. intros name _. by rewrite Ha.
Qed.

Lemma shortenLabels_attrs fuel svg maxWidth svg' :
  shortenLabels ext fuel svg maxWidth = Completed svg' -> attrs svg' = attrs svg.
Proof.
  unfold shortenLabels. destruct svg as [t a s x c].
  destruct (shortenEach ext fuel maxWidth c); [|done..].
  by intros [= <-].
Qed.

(** Without a column width nothing is measured as too wide, and the fitter
    returns the frame as it is. *)
Lemma shortenLabels_unset fuel svg :
  shortenLabels ext fuel svg None = Completed svg.
Proof.
  unfold shortenLabels. destruct svg as [t a s x c].
  assert (He : shortenEach ext fuel None c = Completed c).
  { induction c as [|e c IH]; simpl; [done|].
    rewrite IH. destruct (isLegendItem e); [|done].
    by rewrite shortenLabel_fitting. }
  by rewrite He.
Qed.

Lemma frame_size :
  attrs (frame config) !! "width" = Some (ANum (JS.Num (fst (size config))))
  /\ attrs (frame config) !! "height" = Some (ANum (JS.Num (snd (size config))))
  /\ attrs (frame config) !! "viewBox"
     = Some (viewBox (JS.Num (fst (size config))) (JS.Num (snd (size config)))).
Proof. unfold frame. destruct (size config) as [w h]. repeat split. Qed.

End RenderFacts.

(** [render] completes whenever no column width is configured. *)
Lemma render_completes {OlStyle Error : Type}
    (ext : Collaborators OlStyle Error) (config : LegendsConfiguration)
    (fuel : nat) :
  maxColumnWidth config = None ->
  exists svg, render ext config fuel = Completed svg.
Proof.
  intros Hw. unfold render. destruct (size config) as [width height].
  destruct (placeLegends_fulfilled ext config) as (placed & p & -> & _).
  rewrite Hw, shortenLabels_unset.
  destruct (negb _); by eexists.
Qed.

(** C6, as stated, fails for a column height configured as 0: the frame is
    configured 200 by 100 and [render] still sets its height to rowY = 55. *)
Lemma render_zero_height_counterexample :
  maxColumnHeight Sample.zeroHeight = Some 0
  /\ size Sample.zeroHeight = (200, 100)
  /\ exists svg,
       render Sample.working Sample.zeroHeight 0 = Completed svg
       /\ attrs svg !! "height" = Some (ANum (JS.Num 55))
       /\ attrs svg !! "height"
          <> Some (ANum (JS.Num (snd (size Sample.zeroHeight)))).
Proof.
  split; [reflexivity|]. split; [reflexivity|].
  eexists. split; [reflexivity|]. split; [reflexivity|].
  vm_compute. discriminate.
Qed.

(** C6, amended: after [render] completes, if maxColumnHeight is unset or 0
    the height of the frame, and the height in its view box, is the rowY the
    cursor has after all legends and remote legends; if maxColumnHeight is
    configured and not 0 the frame keeps its configured width, height and
    view box. *)
Theorem render_frame_size {OlStyle Error : Type}
    (ext : Collaborators OlStyle Error) (config : LegendsConfiguration)
    (fuel : nat) (svg : Element) :
  render ext config fuel = Completed svg ->
  exists placed position,
    placeLegends ext config = (Fulfilled tt, placed, position)
    /\ (maxColumnHeight config = None \/ maxColumnHeight config = Some 0 ->
        attrs svg !! "height" = Some (ANum (snd position))
        /\ attrs svg !! "viewBox"
           = Some (viewBox (JS.Num (fst (size config))) (snd position)))
    /\ (forall h, maxColumnHeight config = Some h -> h <> 0 ->
        attrs svg !! "width" = Some (ANum (JS.Num (fst (size config))))
        /\ attrs svg !! "height" = Some (ANum (JS.Num (snd (size config))))
        /\ attrs svg !! "viewBox"
           = Some (viewBox (JS.Num (fst (size config)))
                           (JS.Num (snd (size config))))).
Proof.
  unfold render. pose proof (frame_size config) as (Hfw & Hfh & Hfv).
  destruct (size config) as [width height].
  destruct (placeLegends_fulfilled ext config) as (placed & p & Hp & Ha).
  rewrite Hp.
  destruct (shortenLabels ext fuel placed (maxColumnWidth config))
    as [fitted| |] eqn:Hs; [|done..].
  apply shortenLabels_attrs in Hs.
  intros Hr. exists placed, p. split; [done|]. split.
  - intros Hm.
    assert (Hf : JS.truthy (maxColumnHeight config) = false)
      by (destruct Hm as [-> | ->]; reflexivity).
    rewrite Hf in Hr. simpl in Hr. injection Hr as <-.
    destruct fitted; simpl. split.
    + by rewrite lookup_insert_eq.
    + by rewrite lookup_insert_ne, lookup_insert_eq.
  - intros h Hh Hn.
    assert (Hf : JS.truthy (maxColumnHeight config) = true).
    { rewrite Hh. simpl. by rewrite bool_decide_eq_false_2. }
    rewrite Hf in Hr. simpl in Hr. injection Hr as <-.
    rewrite Hs, !Ha by done. done.
Qed.

Lemma render_frame_size_witness :
  (exists svg,
     render Sample.working Sample.config 0 = Completed svg
     /\ attrs svg !! "height" = Some (ANum (JS.Num 250))
     /\ attrs svg !! "viewBox" = Some (AStr "0 0 200 250"))
  /\ (exists svg,
        render Sample.working Sample.grouped 0 = Completed svg
        /\ attrs svg !! "width" = Some (ANum (JS.Num 200))
        /\ attrs svg !! "height" = Some (ANum (JS.Num 100))
        /\ attrs svg !! "viewBox" = Some (AStr "0 0 200 100")).
Proof.
  split.
  - eexists. split; [reflexivity|].
    destruct (render_frame_size Sample.working Sample.config 0 _ eq_refl)
      as (placed & position & Hp & Hunset & _).
    destruct (Hunset (or_introl eq_refl)) as [Hh Hv].
    vm_compute in Hp. injection Hp as <- <-.
    split; [exact Hh|exact Hv].
  - eexists. split; [reflexivity|].
    destruct (render_frame_size Sample.working Sample.grouped 0 _ eq_refl)
      as (placed & position & _ & _ & Hset).
    apply (Hset 100 eq_refl). discriminate.
Defined.

(** * Further properties *)

(** ** Geometries stay inside the icon *)

(** X1: whatever the kind of the symbolizer, every coordinate of the geometry
    chosen for it lies inside the 45x30 icon box. *)
Theorem getGeometryForSymbolizer_inside (symbolizer : Symbolizer) :
  Forall insideIconBox (coordinates (getGeometryForSymbolizer symbolizer)).
Proof.
  assert (Hc : insideIconBox (iconW / 2, iconH / 2)%Q)
    by (split; split; unfold Qle; simpl; lia).
  unfold getGeometryForSymbolizer.
  repeat (match goal with
          | |- context [String.eqb ?a ?b] => destruct (String.eqb a b)
          end);
    simpl; repeat constructor; try exact Hc;
    unfold Qle; simpl; lia.
Qed.

(** ** Items *)

(** X2: when the icon of an item is synthesized, [renderLegendItem] appends
    one [legend-item] group titled by the item; the group holds the image
    with the icon as [href] and the label with the title of the item as text,
    preceded by the rectangle unless [hideRect] is set; rectangle and image
    sit at (columnX + 1, rowY) with the size of the icon box, the label at
    (columnX + 50, rowY + 20). *)
Theorem renderLegendItem_icon_fulfilled {OlStyle Error : Type}
    (ext : Collaborators OlStyle Error) (config : LegendsConfiguration)
    (container : Element) (item : LegendItemConfiguration) (position : Position)
    (rule : Rule) (uri : string) :
  item_rule item = Some rule ->
  getRuleIcon ext rule = Fulfilled uri ->
  exists g rect image label,
    renderLegendItem ext config container item position
    = (RetPromise (Fulfilled tt), D3.append g container,
       advanceAfterItem config position)
    /\ isLegendItem g = true
    /\ attrs g !! "title" = Some (AStr (item_title item))
    /\ children g = (if hideRect config then [] else [rect]) ++ [image; label]
    /\ (tag rect = "rect" /\ tag image = "image" /\ tag label = "text")
    /\ (forall e, e = rect \/ e = image ->
          attrs e !! "x" = Some (ANum (JS.add (fst position) (JS.Num 1)))
          /\ attrs e !! "y" = Some (ANum (snd position))
          /\ attrs e !! "width" = Some (ANum (JS.Num 45))
          /\ attrs e !! "height" = Some (ANum (JS.Num 30)))
    /\ attrs image !! "href" = Some (AStr uri)
    /\ textContent label = item_title item
    /\ attrs label !! "x"
       = Some (ANum (JS.add (JS.add (fst position) (JS.Num 45)) (JS.Num 5)))
    /\ attrs label !! "y" = Some (ANum (JS.add (snd position) (JS.Num 20)))
    /\ nodeText g = Completed (item_title item).
Proof.
  intros Hr Hi.
  exists ((D3.append (itemText position (item_title item))
            (D3.append (itemImage position uri)
              (if negb (hideRect config)
               then D3.append (itemRect position) (legendItemGroup item)
               else legendItemGroup item)))),
    (itemRect position), (itemImage position uri),
    (itemText position (item_title item)).
  split; [unfold renderLegendItem; by rewrite Hr, Hi|].
  split; [by destruct (hideRect config)|].
  split; [by destruct (hideRect config)|].
  split; [by destruct (hideRect config)|].
  split; [done|].
  split; [intros e [-> | ->]; repeat split|].
  split; [done|]. split; [done|]. split; [done|]. split; [done|].
  by destruct (hideRect config).
Qed.

Lemma renderLegendItem_icon_fulfilled_witness :
  exists g rect image label,
    renderLegendItem Sample.working Sample.grouped (frame Sample.grouped)
      Sample.lake (JS.Num 150, JS.Num 20)
    = (RetPromise (Fulfilled tt), D3.append g (frame Sample.grouped),
       (JS.Num 150, JS.Num 55))
    /\ isLegendItem g = true
    /\ attrs g !! "title" = Some (AStr "Lake")
    /\ children g = [rect; image; label]
    /\ (tag rect = "rect" /\ tag image = "image" /\ tag label = "text")
    /\ (forall e, e = rect \/ e = image ->
          attrs e !! "x" = Some (ANum (JS.Num 151))
          /\ attrs e !! "y" = Some (ANum (JS.Num 20))
          /\ attrs e !! "width" = Some (ANum (JS.Num 45))
          /\ attrs e !! "height" = Some (ANum (JS.Num 30)))
    /\ attrs image !! "href" = Some (AStr Sample.pngUri)
    /\ textContent label = "Lake"
    /\ attrs label !! "x" = Some (ANum (JS.Num 200))
    /\ attrs label !! "y" = Some (ANum (JS.Num 40))
    /\ nodeText g = Completed "Lake".
Proof.
  apply (renderLegendItem_icon_fulfilled Sample.working Sample.grouped
           (frame Sample.grouped) Sample.lake (JS.Num 150, JS.Num 20)
           Sample.fillRule Sample.pngUri); reflexivity.
Defined.

(** X3: the cursor after a placed item.  Without a column height (unset or
    0) rowY grows by 35 and columnX stays.  With a column height H, the item
    that leaves less than 35 free rows below it (rowY + 70 >= H) starts a new
    column at (columnX + maxColumnWidth, 5), any other one moves rowY down by
    35; so afterwards the cursor is at the top of a column or a further item
    fits above H. *)
Theorem advanceAfterItem_room (config : LegendsConfiguration)
    (columnX : JS.num) (rowY : Z) :
  (JS.truthy (maxColumnHeight config) = false ->
   advanceAfterItem config (columnX, JS.Num rowY) = (columnX, JS.Num (rowY + 35)))
  /\ (forall H, maxColumnHeight config = Some H -> H <> 0 ->
      (rowY + 70 >= H ->
       advanceAfterItem config (columnX, JS.Num rowY)
       = (JS.add columnX (JS.toNumber (maxColumnWidth config)), JS.Num 5))
      /\ (rowY + 70 < H ->
          advanceAfterItem config (columnX, JS.Num rowY)
          = (columnX, JS.Num (rowY + 35)))
      /\ (snd (advanceAfterItem config (columnX, JS.Num rowY)) = JS.Num 5
          \/ exists y, snd (advanceAfterItem config (columnX, JS.Num rowY)) = JS.Num y
                       /\ y + 35 < H)).
Proof.
  unfold advanceAfterItem. split.
  - intros ->. done.
  - intros H Hh Hn. rewrite Hh. simpl.
    rewrite (bool_decide_eq_false_2 _ Hn). simpl.
    destruct (decide (rowY + 35 + 30 + 5 >= H)) as [Hge|Hlt].
    + rewrite (bool_decide_eq_true_2 _ Hge).
      split; [done|]. split; [lia|]. by left.
    + rewrite (bool_decide_eq_false_2 _ Hlt).
      split; [lia|]. split; [done|]. right. exists (rowY + 35). split; [done|lia].
Qed.

Lemma advanceAfterItem_room_witness :
  advanceAfterItem Sample.grouped (JS.Num 0, JS.Num 55) = (JS.Num 150, JS.Num 5)
  /\ advanceAfterItem Sample.grouped (JS.Num 0, JS.Num 20) = (JS.Num 0, JS.Num 55)
  /\ advanceAfterItem Sample.config (JS.Num 0, JS.Num 500) = (JS.Num 0, JS.Num 535).
Proof.
  destruct (advanceAfterItem_room Sample.grouped (JS.Num 0) 55) as [_ Hset].
  destruct (Hset 100 eq_refl ltac:(discriminate)) as (Hbreak & _ & _).
  destruct (advanceAfterItem_room Sample.grouped (JS.Num 0) 20) as [_ Hset'].
  destruct (Hset' 100 eq_refl ltac:(discriminate)) as (_ & Hstay & _).
  split; [apply Hbreak; lia|]. split; [apply Hstay; lia|].
  apply (proj1 (advanceAfterItem_room Sample.config (JS.Num 0) 500)).
  reflexivity.
Defined.

(** ** Legends *)

Section LegendFacts.

Context {OlStyle Error : Type}.
Context (ext : Collaborators OlStyle Error).
Context (config : LegendsConfiguration).

(** What an item adds to the frame: its group when it has a rule, nothing
    otherwise. *)
Lemma thenRenderLegendItem_group svg position item :
  exists groups svg' position',
    thenRenderLegendItem ext config (Fulfilled tt, svg, position) item
    = (Fulfilled tt, svg', position')
    /\ children svg' = children svg ++ groups
    /\ Forall2 (fun g it =>
                  isLegendItem g = true
                  /\ attrs g !! "title" = Some (AStr (item_title it)))
               groups (List.filter ruled [item]).
Proof.
  unfold thenRenderLegendItem, renderLegendItem, ruled. simpl.
  destruct (item_rule item) as [rule|].
  - pose proof (getRuleIcon_not_pending ext rule) as Hp.
    destruct (getRuleIcon ext rule) as [|uri|e]; [done| |];
      eexists [_]; do 2 eexists; (split; [reflexivity|]);
      (split; [by destruct svg|]);
      repeat constructor; by destruct (hideRect config).
  - exists [], svg, position. rewrite app_nil_r. by repeat constructor.
Qed.

Lemma items_groups (l : list LegendItemConfiguration) svg position :
  exists groups svg' position',
    fold_left (thenRenderLegendItem ext config) l (Fulfilled tt, svg, position)
    = (Fulfilled tt, svg', position')
    /\ children svg' = children svg ++ groups
    /\ Forall2 (fun g it =>
                  isLegendItem g = true
                  /\ attrs g !! "title" = Some (AStr (item_title it)))
               groups (List.filter ruled l).
Proof.
  revert svg position.
  induction l as [|item l IH]; intros svg position; cbn [fold_left].
  - exists [], svg, position. rewrite app_nil_r. by repeat constructor.
  - destruct (thenRenderLegendItem_group svg position item)
      as (g1 & svg1 & p1 & -> & Hc1 & Hf1).
    destruct (IH svg1 p1) as (g2 & svg2 & p2 & -> & Hc2 & Hf2).
    exists (g1 ++ g2), svg2, p2. split; [done|].
    split; [by rewrite Hc2, Hc1, app_assoc|].
    change (item :: l) with ([item] ++ l). rewrite List.filter_app.
    by apply Forall2_app.
Qed.

End LegendFacts.

(** X4: [renderLegend] always fulfills, whatever becomes of the icons.  To
    the frame it appends the group of the title and then, in item order, one
    [legend-item] group per item that has a rule, titled by that item; items
    without a rule add nothing, items whose icon fails still add their
    group. *)
Theorem renderLegend_groups {OlStyle Error : Type}
    (ext : Collaborators OlStyle Error) (config : LegendsConfiguration)
    (legend : LegendConfiguration) (svg : Element) (position : Position) :
  exists titleGroup groups svg' position',
    renderLegend ext config legend svg position = (Fulfilled tt, svg', position')
    /\ children svg' = children svg ++ titleGroup :: groups
    /\ tag titleGroup = "g" /\ isLegendItem titleGroup = false
    /\ Forall2 (fun g item =>
                  isLegendItem g = true
                  /\ attrs g !! "title" = Some (AStr (item_title item)))
               groups (List.filter ruled (items legend)).
Proof.
  unfold renderLegend.
  destruct (placeTitle legend (D3.create "g") _) as [container p] eqn:Ht.
  destruct (items_groups ext config (items legend) (D3.append container svg) p)
    as (groups & svg' & p' & -> & Hc & Hf).
  exists container, groups, svg', p'. split; [done|].
  split; [rewrite Hc; destruct svg; simpl; by rewrite <- app_assoc|].
  unfold placeTitle in Ht.
  destruct (bool_decide (title legend <> "")); injection Ht as <- <-; done.
Qed.

(** X5: a legend with a title gets a [legend-title] text at dx = columnX
    whose dy is "1em" at the top of a column (rowY = 0) and rowY + 15 below
    it, and the cursor moves down by 20; a legend with an empty title gets no
    text and leaves the cursor where it is. *)
Theorem placeTitle_text (legend : LegendConfiguration) (container : Element)
    (position : Position) :
  (title legend <> "" ->
   exists text,
     placeTitle legend container position
     = (D3.append text container,
        (fst position, JS.add (snd position) (JS.Num 20)))
     /\ tag text = "text"
     /\ textContent text = title legend
     /\ attrs text !! "class" = Some (AStr "legend-title")
     /\ attrs text !! "dx" = Some (ANum (fst position))
     /\ (snd position = JS.Num 0 -> attrs text !! "dy" = Some (AStr "1em"))
     /\ (snd position <> JS.Num 0 ->
         attrs text !! "dy" = Some (ANum (JS.add (snd position) (JS.Num 15)))))
  /\ (title legend = "" ->
      placeTitle legend container position = (container, position)).
Proof.
  unfold placeTitle. split.
  - intros Ht. rewrite (bool_decide_eq_true_2 _ Ht).
    eexists. split; [reflexivity|]. do 4 (split; [reflexivity|]). split.
    + intros Hz. unfold legendTitle. rewrite Hz. reflexivity.
    + intros Hn. unfold legendTitle. rewrite (strictEq_false _ _ Hn). reflexivity.
  - intros ->. reflexivity.
Qed.

Lemma placeTitle_text_witness :
  (exists text,
     placeTitle Sample.manual (D3.create "g") (JS.Num 0, JS.Num 0)
     = (D3.append text (D3.create "g"), (JS.Num 0, JS.Num 20))
     /\ textContent text = "Manual"
     /\ attrs text !! "dy" = Some (AStr "1em"))
  /\ placeTitle (mkLegend [Sample.lake] "") (D3.create "g") (JS.Num 0, JS.Num 40)
     = (D3.create "g", (JS.Num 0, JS.Num 40)).
Proof.
  split.
  - destruct (proj1 (placeTitle_text Sample.manual (D3.create "g")
                       (JS.Num 0, JS.Num 0)) ltac:(discriminate))
      as (text & Hp & _ & Hc & _ & _ & Hdy & _).
    exists text. split; [exact Hp|]. split; [exact Hc|]. by apply Hdy.
  - apply (proj2 (placeTitle_text (mkLegend [Sample.lake] "") (D3.create "g")
                    (JS.Num 0, JS.Num 40))).
    reflexivity.
Defined.

(** X6: in the first column (columnX = 0), and under the policy [auto]
    anywhere, the check before a legend never moves the cursor, however many
    items the legend has; its title group is appended at the cursor as it
    was. *)
Theorem columnBreakBefore_first_column {OlStyle Error : Type}
    (ext : Collaborators OlStyle Error) (config : LegendsConfiguration)
    (legend : LegendConfiguration) (svg : Element) (position : Position) :
  fst position = JS.Num 0 \/ overflow config = Some OverflowAuto ->
  columnBreakBefore config legend position = position
  /\ exists groups,
       children (snd (fst (renderLegend ext config legend svg position)))
       = children svg ++ fst (placeTitle legend (D3.create "g") position) :: groups.
Proof.
  intros Hc.
  assert (Hb : columnBreakBefore config legend position = position).
  { unfold columnBreakBefore. destruct Hc as [-> | ->].
    - simpl. by rewrite andb_false_r.
    - by rewrite bool_decide_eq_true_2. }
  split; [exact Hb|].
  destruct (renderLegend_children ext config legend svg position) as [groups Hg].
  exists groups. by rewrite Hg, Hb.
Qed.

Lemma columnBreakBefore_first_column_witness :
  columnBreakBefore Sample.grouped (extractConfigFromStyle Sample.hydro)
    (JS.Num 0, JS.Num 95) = (JS.Num 0, JS.Num 95)
  /\ columnBreakBefore Sample.automatic (extractConfigFromStyle Sample.hydro)
       (JS.Num 150, JS.Num 95) = (JS.Num 150, JS.Num 95).
Proof.
  split.
  - apply (columnBreakBefore_first_column Sample.working Sample.grouped
             (extractConfigFromStyle Sample.hydro) (frame Sample.grouped)
             (JS.Num 0, JS.Num 95)).
    left. reflexivity.
  - apply (columnBreakBefore_first_column Sample.working Sample.automatic
             (extractConfigFromStyle Sample.hydro) (frame Sample.automatic)
             (JS.Num 150, JS.Num 95)).
    right. reflexivity.
Defined.

(** ** One unbounded column *)

Section UnboundedColumn.

Context {OlStyle Error : Type}.
Context (ext : Collaborators OlStyle Error).
Context (config : LegendsConfiguration).
Hypothesis unbounded : maxColumnHeight config = None.

Lemma unbounded_item svg (columnX : JS.num) (rowY : Z) item :
  exists svg',
    thenRenderLegendItem ext config (Fulfilled tt, svg, (columnX, JS.Num rowY)) item
    = (Fulfilled tt, svg',
       (columnX, JS.Num (rowY + if iconAvailable ext item then 35 else 0))).
Proof.
  unfold thenRenderLegendItem, renderLegendItem, iconAvailable.
  destruct (item_rule item) as [rule|].
  - pose proof (getRuleIcon_not_pending ext rule) as Hp.
    destruct (getRuleIcon ext rule) as [|uri|e]; [done| |].
    + unfold advanceAfterItem. rewrite unbounded. simpl. by eexists.
    + rewrite Z.add_0_r. by eexists.
  - rewrite Z.add_0_r. by eexists.
Qed.

Lemma unbounded_items (l : list LegendItemConfiguration) svg columnX rowY :
  exists svg',
    fold_left (thenRenderLegendItem ext config) l
      (Fulfilled tt, svg, (columnX, JS.Num rowY))
    = (Fulfilled tt, svg',
       (columnX,
        JS.Num (rowY + 35 * Z.of_nat (length (List.filter (iconAvailable ext) l))))).
Proof.
  revert svg rowY. induction l as [|item l IH]; intros svg rowY; cbn [fold_left].
  - simpl. rewrite Z.add_0_r. by eexists.
  - destruct (unbounded_item svg columnX rowY item) as [svg1 ->].
    destruct (IH svg1 (rowY + if iconAvailable ext item then 35 else 0))
      as [svg2 ->].
    exists svg2. do 3 f_equal. simpl.
    destruct (iconAvailable ext item); simpl length; lia.
Qed.

Lemma unbounded_legend legend svg columnX rowY :
  exists svg',
    renderLegend ext config legend svg (columnX, JS.Num rowY)
    = (Fulfilled tt, svg', (columnX, JS.Num (rowY + legendRows ext legend))).
Proof.
  unfold renderLegend, legendRows.
  assert (Hb : columnBreakBefore config legend (columnX, JS.Num rowY)
               = (columnX, JS.Num rowY)).
  { unfold columnBreakBefore. rewrite unbounded. simpl.
    by destruct (negb _ && negb _). }
  rewrite Hb.
  destruct (placeTitle legend (D3.create "g") (columnX, JS.Num rowY))
    as [container p] eqn:Ht.
  assert (Hp : p = (columnX,
                    JS.Num (rowY + if bool_decide (title legend <> "")
                                   then 20 else 0))).
  { unfold placeTitle in Ht.
    destruct (bool_decide (title legend <> "")); injection Ht as <- <-; simpl;
      [done|by rewrite Z.add_0_r]. }
  subst p.
  destruct (unbounded_items (items legend) (D3.append container svg) columnX
              (rowY + if bool_decide (title legend <> "") then 20 else 0))
    as [svg' Hs].
  exists svg'. etrans; [exact Hs|]. do 3 f_equal. lia.
Qed.

Lemma unbounded_legends (l : list LegendConfiguration) svg columnX rowY :
  exists svg',
    fold_left (awaitRenderLegend ext config) l
      (Fulfilled tt, svg, (columnX, JS.Num rowY))
    = (Fulfilled tt, svg',
       (columnX, JS.Num (rowY + total (map (legendRows ext) l)))).
Proof.
  revert svg rowY. induction l as [|legend l IH]; intros svg rowY; cbn [fold_left].
  - simpl. rewrite Z.add_0_r. by eexists.
  - unfold awaitRenderLegend at 2.
    destruct (unbounded_legend legend svg columnX rowY) as [svg1 ->].
    destruct (IH svg1 (rowY + legendRows ext legend)) as [svg2 ->].
    exists svg2. do 3 f_equal. simpl. lia.
Qed.

Lemma unbounded_image svg columnX rowY remote :
  exists svg',
    renderImage ext config (svg, (columnX, JS.Num rowY)) remote
    = (svg', (columnX, JS.Num (rowY + remoteRows ext remote))).
Proof.
  unfold renderImage, remoteRows. rewrite unbounded.
  destruct (fetchImage ext (url remote)) as [img|].
  - simpl. rewrite andb_false_r.
    destruct (bool_decide (remote_title remote <> "")); simpl;
      eexists; do 3 f_equal; lia.
  - rewrite Z.add_0_r. by eexists.
Qed.

Lemma unbounded_images (l : list RemoteLegend) svg columnX rowY :
  exists svg',
    renderImages ext config l svg (columnX, JS.Num rowY)
    = (svg', (columnX, JS.Num (rowY + total (map (remoteRows ext) l)))).
Proof.
  unfold renderImages.
  assert (Hf : exists svg',
             fold_left (renderImage ext config) l
               (@pair Element Position svg (columnX, JS.Num rowY))
             = (svg', (columnX, JS.Num (rowY + total (map (remoteRows ext) l))))).
  { revert svg rowY. induction l as [|remote l IH]; intros svg rowY;
      cbn [fold_left].
    - simpl. rewrite Z.add_0_r. by eexists.
    - destruct (unbounded_image svg columnX rowY remote) as [svg1 H1].
      destruct (IH svg1 (rowY + remoteRows ext remote)) as [svg2 H2].
      exists svg2. etrans; [exact (f_equal _ H1)|]. etrans; [exact H2|].
      do 3 f_equal. simpl. lia. }
  destruct Hf as [svg' ->]. by eexists.
Qed.

End UnboundedColumn.

(** X7: without a column height the whole legend is one column: columnX
    stays 0 and the final rowY is the sum of the rows of the legends (20 per
    title, 35 per item whose icon is synthesized) and of the remote legends
    (25 per title plus the height of each fetched image).  That sum is the
    height [render] gives the frame. *)
Theorem render_unbounded_height {OlStyle Error : Type}
    (ext : Collaborators OlStyle Error) (config : LegendsConfiguration) :
  maxColumnHeight config = None ->
  let rows := total (map (legendRows ext) (legendList config))
              + total (map (remoteRows ext) (default [] (remoteLegends config))) in
  (exists placed,
     placeLegends ext config = (Fulfilled tt, placed, (JS.Num 0, JS.Num rows)))
  /\ forall fuel svg,
       render ext config fuel = Completed svg ->
       attrs svg !! "height" = Some (ANum (JS.Num rows)).
Proof.
  intros Hu rows.
  assert (Hp : exists placed,
             placeLegends ext config
             = (Fulfilled tt, placed, (JS.Num 0, JS.Num rows))).
  { unfold placeLegends.
    destruct (unbounded_legends ext config Hu (legendList config) (frame config)
                (JS.Num 0) 0) as [svg1 H1].
    cbv zeta.
    match goal with
    | |- context [fold_left ?f ?l ?a] =>
        replace (fold_left f l a)
          with (@pair (PromiseState unit unit * Element) Position
                  (Fulfilled tt, svg1)
                  (JS.Num 0,
                   JS.Num (0 + total (map (legendRows ext) (legendList config)))))
          by (symmetry; exact H1)
    end.
    destruct (remoteLegends config) as [l|]; simpl default in *.
    - destruct (unbounded_images ext config Hu l svg1 (JS.Num 0)
                  (0 + total (map (legendRows ext) (legendList config))))
        as [svg2 H2].
      match goal with
      | |- context [renderImages ?e ?c ?l ?s ?p] =>
          replace (renderImages e c l s p)
            with (@pair Element Position svg2
                    (JS.Num 0,
                     JS.Num (0 + total (map (legendRows ext) (legendList config))
                             + total (map (remoteRows ext) l))))
            by (symmetry; exact H2)
      end.
      by eexists.
    - eexists. do 3 f_equal. subst rows. simpl. lia. }
  split; [exact Hp|].
  destruct Hp as [placed Hp]. intros fuel svg. unfold render.
  destruct (size config) as [width height]. rewrite Hp, Hu.
  destruct (shortenLabels ext fuel placed (maxColumnWidth config))
    as [fitted| |]; [|done..].
  simpl. intros [= <-]. destruct fitted; simpl. by rewrite lookup_insert_eq.
Qed.

Lemma render_unbounded_height_witness :
  (exists placed,
     placeLegends Sample.working Sample.config
     = (Fulfilled tt, placed, (JS.Num 0, JS.Num 250)))
  /\ forall fuel svg,
       render Sample.working Sample.config fuel = Completed svg ->
       attrs svg !! "height" = Some (ANum (JS.Num 250)).
Proof.
  apply (render_unbounded_height Sample.working Sample.config). reflexivity.
Defined.

(** ** Remote legends, continued *)

(** X8: a remote legend that cannot be fetched is skipped: the frame and the
    cursor come out as if the reference were not in the list, so the
    references before and after it are placed all the same. *)
Theorem renderImages_skips_failed {OlStyle Error : Type}
    (ext : Collaborators OlStyle Error) (config : LegendsConfiguration)
    (before after : list RemoteLegend) (remote : RemoteLegend)
    (svg : Element) (position : Position) :
  fetchImage ext (url remote) = None ->
  renderImages ext config (before ++ remote :: after) svg position
  = renderImages ext config (before ++ after) svg position.
Proof.
  intros Hf. unfold renderImages. rewrite !fold_left_app. cbn [fold_left].
  destruct (fold_left (renderImage ext config) before _) as [svg1 p1].
  unfold renderImage at 2. by rewrite Hf.
Qed.

Lemma renderImages_skips_failed_witness :
  renderImages Sample.working Sample.config
    [mkRemote "https://example.org/missing.png" "Gone";
     mkRemote "https://example.org/legend.png" "Remote"]
    (frame Sample.config) (JS.Num 0, JS.Num 0)
  = renderImages Sample.working Sample.config
      [mkRemote "https://example.org/legend.png" "Remote"]
      (frame Sample.config) (JS.Num 0, JS.Num 0).
Proof.
  apply (renderImages_skips_failed Sample.working Sample.config []
           [mkRemote "https://example.org/legend.png" "Remote"]
           (mkRemote "https://example.org/missing.png" "Gone")).
  reflexivity.
Defined.

(** X9: a fetched remote legend adds to the frame its image at its natural
    size with the data URI as [href], preceded, when it has a title, by a
    group holding the [legend-title] text; the text is 20 below the cursor
    the overflow check leaves, the image 5 below the text, and the cursor
    ends right under the image in the same column. *)
Theorem renderImage_places {OlStyle Error : Type}
    (ext : Collaborators OlStyle Error) (config : LegendsConfiguration)
    (svg : Element) (position : Position) (remote : RemoteLegend) (img : Image) :
  fetchImage ext (url remote) = Some img ->
  exists (start : Position) (image : Element),
    (start = position
     \/ start = (JS.add (fst position) (JS.toNumber (maxColumnWidth config)),
                 JS.Num 0))
    /\ tag image = "image"
    /\ attrs image !! "width" = Some (ANum (JS.Num (img_width img)))
    /\ attrs image !! "height" = Some (ANum (JS.Num (img_height img)))
    /\ attrs image !! "href" = Some (AStr (base64 img))
    /\ attrs image !! "x" = Some (ANum (fst start))
    /\ (remote_title remote = "" ->
        children (fst (renderImage ext config (svg, position) remote))
        = children svg ++ [image]
        /\ attrs image !! "y" = Some (ANum (snd start))
        /\ snd (renderImage ext config (svg, position) remote)
           = (fst start, JS.add (snd start) (JS.Num (img_height img))))
    /\ (remote_title remote <> "" ->
        exists text,
          children (fst (renderImage ext config (svg, position) remote))
          = children svg ++ [D3.append text (D3.create "g"); image]
          /\ tag text = "text"
          /\ textContent text = remote_title remote
          /\ attrs text !! "class" = Some (AStr "legend-title")
          /\ attrs text !! "dx" = Some (ANum (fst start))
          /\ attrs text !! "dy" = Some (ANum (JS.add (snd start) (JS.Num 20)))
          /\ attrs image !! "y"
             = Some (ANum (JS.add (JS.add (snd start) (JS.Num 20)) (JS.Num 5)))
          /\ snd (renderImage ext config (svg, position) remote)
             = (fst start,
                JS.add (JS.add (JS.add (snd start) (JS.Num 20)) (JS.Num 5))
                       (JS.Num (img_height img)))).
Proof.
  intros Hf. unfold renderImage. rewrite Hf.
  match goal with
  | |- context [if ?b then (JS.add _ _, JS.Num 0) else position] =>
      set (start := if b then (JS.add (fst position)
                                 (JS.toNumber (maxColumnWidth config)), JS.Num 0)
                    else position);
      assert (Hs : start = position
                   \/ start = (JS.add (fst position)
                                 (JS.toNumber (maxColumnWidth config)), JS.Num 0))
        by (subst start; destruct b; auto)
  end.
  clearbody start.
  destruct (decide (remote_title remote = "")) as [Ht|Ht].
  - rewrite Ht. simpl.
    exists start, (remoteImage start img).
    split; [exact Hs|]. do 5 (split; [reflexivity|]). split.
    + intros _. destruct svg; simpl. done.
    + done.
  - rewrite (bool_decide_eq_true_2 _ Ht).
    exists start,
      (remoteImage (fst start, JS.add (JS.add (snd start) (JS.Num 20)) (JS.Num 5))
         img).
    split; [exact Hs|]. do 5 (split; [reflexivity|]). split; [done|].
    intros _. eexists. split.
    + destruct svg; simpl. rewrite <- app_assoc. reflexivity.
    + repeat split.
Qed.

Lemma renderImage_places_witness :
  exists (start : Position) (image : Element),
    (start = (JS.Num 0, JS.Num 40) \/ start = (JS.Num 150, JS.Num 0))
    /\ tag image = "image"
    /\ attrs image !! "width" = Some (ANum (JS.Num 120))
    /\ attrs image !! "height" = Some (ANum (JS.Num 80))
    /\ attrs image !! "href" = Some (AStr "data:image/png;base64,UkVNT1RF")
    /\ attrs image !! "x" = Some (ANum (fst start)).
Proof.
  destruct (renderImage_places Sample.working Sample.automatic
              (frame Sample.automatic) (JS.Num 0, JS.Num 40)
              (mkRemote "https://example.org/legend.png" "Remote")
              (mkImage 120 80 "data:image/png;base64,UkVNT1RF") eq_refl)
    as (start & image & Hs & Ht & Hw & Hh & Hr & Hx & _).
  exists start, image. repeat split; assumption.
Defined.

(** ** What the icon shows *)

Section DrawingFacts.

Context {OlStyle Error : Type}.
Context (ext : Collaborators OlStyle Error).
Hypothesis setStyle_works : forall s, setStyle_ok ext s = true.
Hypothesis drawGeometry_works : forall s g, drawGeometry_ok ext s g = true.

Lemma drawGeoms_canvas (geoms : list OlGeometry) (s : OlStyle) st :
  current st = Some s ->
  forEach (drawGeometry ext) geoms st
  = (Some tt, mkExecState (settled st) (Some s) (canvas st ++ map (pair s) geoms)).
Proof.
  revert st. induction geoms as [|g geoms IH]; intros st Hc; simpl.
  - rewrite app_nil_r. unfold ret. destruct st; simpl in *. by rewrite Hc.
  - unfold bind, drawGeometry at 1. rewrite Hc, drawGeometry_works.
    rewrite IH by done. simpl. by rewrite <- app_assoc.
Qed.

Lemma drawStyleList_canvas (geoms : list OlGeometry) (l : list OlStyle) st :
  exists cur,
    forEach (fun styleItem =>
               bind (setStyle ext (Some styleItem))
                    (fun _ => forEach (drawGeometry ext) geoms)) l st
    = (Some tt,
       mkExecState (settled st) cur
         (canvas st ++ flat_map (fun s => map (pair s) geoms) l)).
Proof.
  revert st. induction l as [|s l IH]; intros st; cbn [forEach].
  - exists (current st). simpl. rewrite app_nil_r. by destruct st.
  - unfold bind at 1. unfold bind at 1. unfold setStyle at 1.
    rewrite setStyle_works.
    rewrite (drawGeoms_canvas geoms s) by done.
    destruct (IH (mkExecState (settled st) (Some s) (canvas st ++ map (pair s) geoms)))
      as [cur Hc].
    exists cur. etrans; [exact Hc|]. simpl. by rewrite <- app_assoc.
Qed.

Lemma drawStyles_canvas (olStyle : StyleOutput OlStyle) (geoms : list OlGeometry)
    (v : StyleValue OlStyle) (l : list OlStyle) st :
  styleValue olStyle geoms = Some v ->
  styleList v = Some l ->
  exists cur,
    drawStyles ext olStyle geoms st
    = (Some tt,
       mkExecState (settled st) cur
         (canvas st ++ flat_map (fun s => map (pair s) geoms) l)).
Proof.
  intros Hv Hl. unfold drawStyles, bind at 1.
  assert (Hfirst : match olStyle with
                   | OStatic v0 => ret v0
                   | OFunction f => await (f (head geoms) 1)
                   end st = (Some v, st)).
  { destruct olStyle as [v0|f]; simpl in Hv.
    - by injection Hv as ->.
    - by rewrite Hv. }
  rewrite Hfirst. destruct v as [|s|l']; simpl in Hl; [done| |].
  - injection Hl as <-.
    destruct (drawStyleList_canvas geoms [s] st) as [cur Hc].
    exists cur. rewrite <- Hc. simpl. unfold bind at 2.
    destruct (bind _ _ st) as [[[]|] st']; reflexivity.
  - injection Hl as <-. apply drawStyleList_canvas.
Qed.

End DrawingFacts.

Lemma ruleGeoms_map (rule : Rule) :
  ruleGeoms rule = map getGeometryForSymbolizer (symbolizers rule).
Proof. unfold ruleGeoms. by rewrite fold_left_push. Qed.

(** X10: with a renderer that accepts every style and geometry and a
    translator that reports no error, the icon is the export of a canvas on
    which, for each concrete style in turn, one geometry per symbolizer was
    drawn in symbolizer order; a style function is asked once, for the
    geometry of the first symbolizer.  The promise fulfills with that export,
    and rejects without payload when the export fails. *)
Theorem getRuleIcon_draws {OlStyle Error : Type}
    (ext : Collaborators OlStyle Error) (rule : Rule)
    (r : WriteStyleResult OlStyle Error) (v : StyleValue OlStyle)
    (l : list OlStyle) :
  (forall s, setStyle_ok ext s = true) ->
  (forall s g, drawGeometry_ok ext s g = true) ->
  writeStyle ext (ruleStyle rule) = Some r ->
  default [] (errors r) = [] ->
  styleValue (output r) (map getGeometryForSymbolizer (symbolizers rule)) = Some v ->
  styleList v = Some l ->
  getRuleIcon ext rule
  = match toDataURL ext
            (flat_map (fun s => map (pair s)
                                  (map getGeometryForSymbolizer (symbolizers rule)))
                      l) with
    | Some uri => Fulfilled uri
    | None => Rejected None
    end.
Proof.
  intros Hset Hdraw Hw He Hv Hl.
  unfold getRuleIcon, tryCatch, executor, bind at 1.
  rewrite Hw. simpl. rewrite He. simpl. unfold bind at 1. simpl. unfold bind at 1.
  rewrite ruleGeoms_map.
  destruct (drawStyles_canvas ext Hset Hdraw (output r) _ v l freshState Hv Hl)
    as [cur ->].
  unfold bind, canvasToDataURL. simpl.
  destruct (toDataURL ext _) as [uri|]; reflexivity.
Qed.

Lemma getRuleIcon_draws_witness :
  getRuleIcon Sample.working hydroRule
  = match toDataURL Sample.working
            [(1%nat, getGeometryForSymbolizer (mkSymbolizer "Fill" "#0000ff"));
             (1%nat, getGeometryForSymbolizer (mkSymbolizer "Line" "#333333"))] with
    | Some uri => Fulfilled uri
    | None => Rejected None
    end.
Proof.
  apply (getRuleIcon_draws Sample.working hydroRule
           (mkWriteStyleResult (OStatic (SVStyle 1%nat)) None)
           (SVStyle 1%nat) [1%nat]); reflexivity.
Defined.

(** ** The label fitter, continued *)

Section FitterFacts.

Context {OlStyle Error : Type}.
Context (ext : Collaborators OlStyle Error).

Lemma shortenLoop_stalls (maxWidth : option Z) (node : Element) (s : string) :
  nodeText node = Completed s ->
  (forall j : nat,
     wider ext (nodeSetText
                  (JS.substring0 (Z.of_nat (String.length s) - Z.of_nat j) s) node)
           maxWidth = true) ->
  forall fuel (j : nat) adapted,
    shortenLoop ext fuel maxWidth
      (nodeSetText (JS.substring0 (Z.of_nat (String.length s) - Z.of_nat j) s) node)
      adapted
    = Stalled.
Proof.
  intros Ht Hwide. induction fuel as [|fuel IH]; intros j adapted; simpl.
  - by rewrite Hwide.
  - rewrite Hwide, (nodeText_nodeSetText _ s) by done.
    rewrite substring0_shorten by lia. rewrite nodeSetText_nodeSetText.
    replace (Z.of_nat (String.length s) - Z.of_nat j - 1)
      with (Z.of_nat (String.length s) - Z.of_nat (S j)) by lia.
    apply IH.
Qed.

Lemma nodeSetText_shape (str : string) (node : Element) :
  tag (nodeSetText str node) = tag node
  /\ attrs (nodeSetText str node) = attrs node
  /\ styles (nodeSetText str node) = styles node
  /\ length (children (nodeSetText str node)) = length (children node).
Proof.
  destruct node as [t a st x c]; simpl. repeat split.
  induction c as [|e c IH]; simpl; [done|].
  destruct (String.eqb (tag e) "text"); simpl; by rewrite ?IH.
Qed.

(** The loop only ever rewrites the label. *)
Lemma shortenLoop_relabels fuel maxWidth node adapted node' adapted' :
  shortenLoop ext fuel maxWidth node adapted = Completed (node', adapted') ->
  node' = node \/ exists str, node' = nodeSetText str node.
Proof.
  revert node adapted. induction fuel as [|fuel IH]; intros node adapted; simpl.
  - destruct (wider ext node maxWidth); [done|]. intros [= <- <-]. by left.
  - destruct (wider ext node maxWidth); [|intros [= <- <-]; by left].
    destruct (nodeText node) as [str| |]; [|done..].
    intros Hl. apply IH in Hl as [->|[str' ->]]; right.
    + by eexists.
    + rewrite nodeSetText_nodeSetText. by eexists.
Qed.

Lemma shortenLabel_relabels fuel maxWidth node final :
  shortenLabel ext fuel maxWidth node = Completed final ->
  final = node \/ exists str, final = nodeSetText str node.
Proof.
  unfold shortenLabel.
  destruct (shortenLoop ext fuel maxWidth node false) as [[node' [|]]| |] eqn:Hl;
    [| |done..].
  - destruct (nodeText node') as [str| |]; [|done..].
    intros [= <-]. apply shortenLoop_relabels in Hl as [->|[str' ->]]; right.
    + by eexists.
    + rewrite nodeSetText_nodeSetText. by eexists.
  - intros [= <-]. by apply shortenLoop_relabels in Hl.
Qed.

Lemma shortenEach_relabels fuel maxWidth (nodes nodes' : list Element) :
  shortenEach ext fuel maxWidth nodes = Completed nodes' ->
  Forall2 (fun e e' =>
             e' = e
             \/ (isLegendItem e = true /\ exists str, e' = nodeSetText str e))
          nodes nodes'.
Proof.
  revert nodes'. induction nodes as [|e nodes IH]; intros nodes'; simpl.
  - intros [= <-]. constructor.
  - destruct (isLegendItem e) eqn:Hi.
    + destruct (shortenLabel ext fuel maxWidth e) as [e'| |] eqn:He; [|done..].
      destruct (shortenEach ext fuel maxWidth nodes) as [l| |]; [|done..].
      intros [= <-]. constructor; [|by apply IH].
      apply shortenLabel_relabels in He as [->|Hs]; [by left|by right].
    + destruct (shortenEach ext fuel maxWidth nodes) as [l| |]; [|done..].
      intros [= <-]. constructor; [by left|by apply IH].
Qed.

End FitterFacts.

(** X11: when the group is too wide whatever is left of its label, the
    empty label included (a column narrower than the icon), the loop of the
    fitter never ends: no number of rounds completes it. *)
Theorem shortenLabel_never_fits {OlStyle Error : Type}
    (ext : Collaborators OlStyle Error) (maxWidth : option Z) (node : Element)
    (s : string) :
  nodeText node = Completed s ->
  (forall j : nat,
     wider ext (nodeSetText
                  (JS.substring0 (Z.of_nat (String.length s) - Z.of_nat j) s) node)
           maxWidth = true) ->
  forall fuel, shortenLabel ext fuel maxWidth node = Stalled.
Proof.
  intros Ht Hwide fuel. unfold shortenLabel.
  pose proof (shortenLoop_stalls ext maxWidth node s Ht Hwide fuel 0%nat false)
    as Hs.
  rewrite Z.sub_0_r, substring0_all, (nodeSetText_same s node Ht) in Hs.
  by rewrite Hs.
Qed.

Lemma shortenLabel_never_fits_witness :
  shortenLabel Sample.working 1000 (Some 40) (Sample.group "Lake") = Stalled.
Proof.
  apply (shortenLabel_never_fits Sample.working (Some 40) (Sample.group "Lake")
           "Lake" eq_refl).
  intros j. unfold wider, Sample.working, boundingWidth.
  generalize (JS.substring0 (Z.of_nat (String.length "Lake") - Z.of_nat j) "Lake").
  intros str. unfold Sample.labelWidth. simpl.
  apply negb_true_iff. unfold Qle_bool. simpl. apply Z.leb_gt. lia.
Defined.

(** X12: [shortenLabels] changes nothing but labels: the frame keeps its
    tag, attributes and number of children; every child that is not a
    [legend-item] group comes out as it went in; a [legend-item] group comes
    out with at most the text of its label rewritten, its attributes (the
    full title among them) and its children count unchanged. *)
Theorem shortenLabels_only_labels {OlStyle Error : Type}
    (ext : Collaborators OlStyle Error) (fuel : nat) (svg svg' : Element)
    (maxWidth : option Z) :
  shortenLabels ext fuel svg maxWidth = Completed svg' ->
  tag svg' = tag svg /\ attrs svg' = attrs svg
  /\ Forall2 (fun e e' =>
                (isLegendItem e = false -> e' = e)
                /\ (e' = e \/ exists str, e' = nodeSetText str e)
                /\ tag e' = tag e /\ attrs e' = attrs e
                /\ length (children e') = length (children e))
             (children svg) (children svg').
Proof.
  unfold shortenLabels. destruct svg as [t a s x c].
  destruct (shortenEach ext fuel maxWidth c) as [c'| |] eqn:He; [|done..].
  intros [= <-]. simpl. split; [done|]. split; [done|].
  apply shortenEach_relabels in He.
  eapply Forall2_impl; [exact He|]. simpl.
  intros e e' [->|[Hi [str ->]]].
  - repeat split; auto.
  - destruct (nodeSetText_shape str e) as (Ht & Ha & _ & Hl).
    split; [by rewrite Hi|]. split; [right; by eexists|]. done.
Qed.

Lemma shortenLabels_only_labels_witness :
  exists svg',
    shortenLabels Sample.working 6 (D3.append (Sample.group "Groundwater")
                                        (frame Sample.grouped)) (Some 100)
    = Completed svg'
    /\ tag svg' = "svg"
    /\ attrs svg' = attrs (frame Sample.grouped).
Proof.
  eexists. split; [reflexivity|].
  destruct (shortenLabels_only_labels Sample.working 6
              (D3.append (Sample.group "Groundwater") (frame Sample.grouped))
              _ (Some 100) eq_refl) as (Ht & Ha & _).
  split; [exact Ht|exact Ha].
Defined.

(** X13: without a column width nothing is ever measured as too wide:
    [render] completes whatever the number of rounds granted to the fitter,
    and the frame it returns holds exactly the children the placement
    produced, labels untouched. *)
Theorem render_without_width {OlStyle Error : Type}
    (ext : Collaborators OlStyle Error) (config : LegendsConfiguration)
    (fuel : nat) :
  maxColumnWidth config = None ->
  exists svg placed position,
    render ext config fuel = Completed svg
    /\ placeLegends ext config = (Fulfilled tt, placed, position)
    /\ children svg = children placed.
Proof.
  intros Hw. unfold render. destruct (size config) as [width height].
  destruct (placeLegends_fulfilled ext config) as (placed & p & Hp & _).
  rewrite Hp, Hw, shortenLabels_unset.
  destruct (negb _); do 3 eexists; (split; [reflexivity|]); (split; [reflexivity|]);
    by destruct placed.
Qed.

Lemma render_without_width_witness :
  exists svg placed position,
    render Sample.working Sample.config 0 = Completed svg
    /\ placeLegends Sample.working Sample.config = (Fulfilled tt, placed, position)
    /\ children svg = children placed.
Proof.
  apply (render_without_width Sample.working Sample.config 0). reflexivity.
Defined.

(** X14: under a measure that depends on the label only through its number
    of characters, a label that is too wide until exactly [k] characters are
    removed and that keeps at least 3 characters then comes out with
    [length - k] characters, "..." being the last three, and the group
    fits. *)
Theorem shortenLabel_fits {OlStyle Error : Type}
    (ext : Collaborators OlStyle Error) (maxWidth : option Z) (node : Element)
    (s : string) (k fuel : nat) :
  nodeText node = Completed s ->
  (forall a b, String.length a = String.length b ->
     wider ext (nodeSetText a node) maxWidth
     = wider ext (nodeSetText b node) maxWidth) ->
  (1 <= k)%nat -> (k + 3 <= String.length s)%nat -> (k <= fuel)%nat ->
  (forall j, (j < k)%nat ->
     wider ext (nodeSetText
                  (JS.substring0 (Z.of_nat (String.length s) - Z.of_nat j) s)
                  node) maxWidth = true) ->
  wider ext (nodeSetText
               (JS.substring0 (Z.of_nat (String.length s) - Z.of_nat k) s)
               node) maxWidth = false ->
  exists final label,
    shortenLabel ext fuel maxWidth node = Completed final
    /\ nodeText final = Completed label
    /\ String.length label = (String.length s - k)%nat
    /\ endsWith "..." label
    /\ wider ext final maxWidth = false.
Proof.
  intros Ht Hlen Hk1 Hk3 Hf Hwide Hfit.
  pose proof (shortenLoop_run ext node s maxWidth k Ht ltac:(lia) Hwide Hfit
                k 0%nat fuel false) as Hrun.
  rewrite Z.sub_0_r, substring0_all, (nodeSetText_same s node Ht) in Hrun.
  specialize (Hrun eq_refl Hf).
  replace (negb (Nat.eqb k 0)) with true in Hrun
    by (destruct k; [lia|done]).
  unfold shortenLabel. rewrite Hrun. simpl.
  rewrite (nodeText_nodeSetText _ s) by done.
  rewrite substring0_shorten by lia. rewrite nodeSetText_nodeSetText.
  assert (Hl : String.length
                 (JS.substring0 (Z.of_nat (String.length s) - Z.of_nat k - 3) s
                  +:+ "...")
               = (String.length s - k)%nat).
  { apply Nat2Z.inj. rewrite append_length, Nat2Z.inj_add, substring0_length by lia.
    simpl. lia. }
  do 2 eexists. split; [reflexivity|].
  split; [by apply (nodeText_nodeSetText _ s)|].
  split; [exact Hl|]. split; [by eexists|].
  etrans; [|exact Hfit]. apply Hlen. etrans; [exact Hl|].
  apply Nat2Z.inj. rewrite substring0_length by lia. lia.
Qed.

Lemma shortenLabel_fits_witness :
  exists final label,
    shortenLabel Sample.working 6 (Some 100) (Sample.group "Groundwater")
    = Completed final
    /\ nodeText final = Completed label
    /\ String.length label = 5%nat
    /\ endsWith "..." label
    /\ wider Sample.working final (Some 100) = false.
Proof.
  apply (shortenLabel_fits Sample.working (Some 100)
           (Sample.group "Groundwater") "Groundwater" 6 6 eq_refl).
  - intros a b Hab. unfold wider, Sample.working, boundingWidth,
      Sample.labelWidth. simpl. by rewrite Hab.
  - lia.
  - simpl. lia.
  - lia.
  - intros j Hj.
    destruct j as [|[|[|[|[|[|j]]]]]]; [reflexivity..|lia].
  - reflexivity.
Defined.

(** ** Columns *)

Section ColumnFacts.

Context {OlStyle Error : Type}.
Context (ext : Collaborators OlStyle Error).
Context (config : LegendsConfiguration).
Context (width : Z).
Hypothesis configured : maxColumnWidth config = Some width.
Hypothesis heights :
  forall u img, fetchImage ext u = Some img -> 0 <= img_height img.

Lemma aligned_next (n : nat) (y : Z) :
  0 <= y ->
  aligned width (JS.add (JS.Num (Z.of_nat n * width)) (JS.toNumber (Some width)),
                 JS.Num y).
Proof. intros Hy. exists (S n), y. split; [|done]. simpl. do 2 f_equal. lia. Qed.

Lemma aligned_down (n : nat) (y d : Z) :
  0 <= y -> 0 <= d ->
  aligned width (JS.Num (Z.of_nat n * width), JS.add (JS.Num y) (JS.Num d)).
Proof. intros Hy Hd. exists n, (y + d). split; [done|lia]. Qed.

Lemma advanceAfterItem_aligned position :
  aligned width position -> aligned width (advanceAfterItem config position).
Proof.
  intros (n & y & -> & Hy). unfold advanceAfterItem. rewrite configured.
  cbn [fst snd]. destruct (_ && _).
  - by apply aligned_next.
  - by apply aligned_down.
Qed.

Lemma thenRenderLegendItem_aligned svg position item :
  aligned width position ->
  exists svg' position',
    thenRenderLegendItem ext config (Fulfilled tt, svg, position) item
    = (Fulfilled tt, svg', position')
    /\ aligned width position'.
Proof.
  intros Ha. unfold thenRenderLegendItem, renderLegendItem.
  destruct (item_rule item) as [rule|]; [|by eauto].
  pose proof (getRuleIcon_not_pending ext rule) as Hp.
  destruct (getRuleIcon ext rule) as [|uri|e]; [done| |]; do 2 eexists;
    (split; [reflexivity|]); [by apply advanceAfterItem_aligned|done].
Qed.

Lemma items_aligned (l : list LegendItemConfiguration) svg position :
  aligned width position ->
  exists svg' position',
    fold_left (thenRenderLegendItem ext config) l (Fulfilled tt, svg, position)
    = (Fulfilled tt, svg', position')
    /\ aligned width position'.
Proof.
  revert svg position.
  induction l as [|item l IH]; intros svg position Ha; cbn [fold_left].
  - by eauto.
  - destruct (thenRenderLegendItem_aligned svg position item Ha)
      as (svg1 & p1 & H1 & Ha1).
    destruct (IH svg1 p1 Ha1) as (svg2 & p2 & H2 & Ha2).
    exists svg2, p2. split; [|done]. etrans; [exact (f_equal _ H1)|exact H2].
Qed.

Lemma columnBreakBefore_aligned legend position :
  aligned width position -> aligned width (columnBreakBefore config legend position).
Proof.
  intros (n & y & -> & Hy). unfold columnBreakBefore. rewrite configured.
  cbn [fst snd]. destruct (_ && _); [|by exists n, y].
  destruct (JS.gt _ _); [by apply aligned_next|by exists n, y].
Qed.

Lemma renderLegend_aligned legend svg position :
  aligned width position ->
  exists svg' position',
    renderLegend ext config legend svg position = (Fulfilled tt, svg', position')
    /\ aligned width position'.
Proof.
  intros Ha. unfold renderLegend.
  apply (columnBreakBefore_aligned legend) in Ha.
  destruct (placeTitle legend (D3.create "g") _) as [container p] eqn:Ht.
  apply items_aligned. unfold placeTitle in Ht.
  destruct (bool_decide (title legend <> "")); injection Ht as <- <-; [|done].
  destruct Ha as (n & y & -> & Hy). by apply aligned_down.
Qed.

Lemma legends_aligned (l : list LegendConfiguration) svg position :
  aligned width position ->
  exists svg' position',
    fold_left (awaitRenderLegend ext config) l (Fulfilled tt, svg, position)
    = (Fulfilled tt, svg', position')
    /\ aligned width position'.
Proof.
  revert svg position.
  induction l as [|legend l IH]; intros svg position Ha; cbn [fold_left].
  - by eauto.
  - destruct (renderLegend_aligned legend svg position Ha)
      as (svg1 & p1 & H1 & Ha1).
    destruct (IH svg1 p1 Ha1) as (svg2 & p2 & H2 & Ha2).
    exists svg2, p2. split; [|done].
    etrans; [exact (f_equal _ H1)|exact H2].
Qed.

Lemma renderImage_aligned cur remote :
  aligned width (snd cur) ->
  aligned width (snd (renderImage ext config cur remote)).
Proof.
  destruct cur as [svg position]. intros (n & y & Hp & Hy). simpl in Hp.
  subst position. unfold renderImage.
  destruct (fetchImage ext (url remote)) as [img|] eqn:Hf; [|by exists n, y].
  apply heights in Hf. rewrite configured. cbn [fst snd].
  destruct (_ && _); destruct (bool_decide (remote_title remote <> ""));
    cbn [fst snd].
  - exists (S n), (0 + 20 + 5 + img_height img).
    split; [simpl; do 3 f_equal; lia|lia].
  - exists (S n), (0 + img_height img).
    split; [simpl; do 3 f_equal; lia|lia].
  - exists n, (y + 20 + 5 + img_height img). split; [done|lia].
  - exists n, (y + img_height img). split; [done|lia].
Qed.

Lemma renderImages_aligned (l : list RemoteLegend) svg position :
  aligned width position ->
  aligned width (snd (renderImages ext config l svg position)).
Proof.
  intros Ha. unfold renderImages.
  assert (Hf : forall cur, aligned width (snd cur) ->
                 aligned width (snd (fold_left (renderImage ext config) l cur))).
  { induction l as [|remote l IH]; intros cur Hc; cbn [fold_left]; [done|].
    by apply IH, renderImage_aligned. }
  specialize (Hf (svg, position) Ha).
  by destruct (fold_left _ l _) as [svg' p'].
Qed.

End ColumnFacts.

(** X15: with a column width W configured (and fetched images of
    non-negative height), the placement always completes and the cursor it
    ends on is made of numbers, never NaN: columnX is a whole multiple of W
    and rowY is not negative. *)
Theorem placeLegends_aligned {OlStyle Error : Type}
    (ext : Collaborators OlStyle Error) (config : LegendsConfiguration)
    (width : Z) :
  maxColumnWidth config = Some width ->
  (forall u img, fetchImage ext u = Some img -> 0 <= img_height img) ->
  exists placed (n : nat) (y : Z),
    placeLegends ext config
    = (Fulfilled tt, placed, (JS.Num (Z.of_nat n * width), JS.Num y))
    /\ 0 <= y.
Proof.
  intros Hw Hh. unfold placeLegends. cbv zeta.
  assert (H0 : aligned width (JS.Num 0, JS.Num 0)) by (by exists 0%nat, 0).
  destruct (legends_aligned ext config width Hw (legendList config)
              (frame config) _ H0) as (svg1 & p1 & H1 & Ha1).
  match goal with
  | |- context [fold_left ?f ?l ?a] =>
      replace (fold_left f l a)
        with (@pair (PromiseState unit unit * Element) Position
                (Fulfilled tt, svg1) p1)
        by (symmetry; exact H1)
  end.
  destruct (remoteLegends config) as [l|].
  - pose proof (renderImages_aligned ext config width Hw Hh l svg1 p1 Ha1) as Ha2.
    destruct (renderImages ext config l svg1 p1) as [svg2 p2].
    destruct Ha2 as (n & y & Hp & Hy). simpl in Hp. subst p2. by eauto.
  - destruct Ha1 as (n & y & -> & Hy). by eauto.
Qed.

Lemma placeLegends_aligned_witness :
  exists placed (n : nat) (y : Z),
    placeLegends Sample.working Sample.grouped
    = (Fulfilled tt, placed, (JS.Num (Z.of_nat n * 150), JS.Num y))
    /\ 0 <= y.
Proof.
  apply (placeLegends_aligned Sample.working Sample.grouped 150 eq_refl).
  intros u img. unfold Sample.working, fetchImage, Sample.fetchOne.
  destruct (String.eqb u "https://example.org/legend.png"); [|discriminate].
  intros [= <-]. simpl. lia.
Defined.

Lemma add_NaN_r (a : JS.num) : JS.add a JS.NaN = JS.NaN.
Proof. by destruct a. Qed.

Section LostColumn.

Context {OlStyle Error : Type}.
Context (ext : Collaborators OlStyle Error).
Context (config : LegendsConfiguration).

Lemma advanceAfterItem_NaN position :
  fst position = JS.NaN -> fst (advanceAfterItem config position) = JS.NaN.
Proof.
  destruct position as [x y]. simpl. intros ->. unfold advanceAfterItem.
  cbn [fst snd]. by destruct (_ && _).
Qed.

Lemma items_NaN (l : list LegendItemConfiguration) cur :
  fst (snd cur) = JS.NaN ->
  fst (snd (fold_left (thenRenderLegendItem ext config) l cur)) = JS.NaN.
Proof.
  revert cur. induction l as [|item l IH]; intros cur Hc; cbn [fold_left]; [done|].
  apply IH. destruct cur as [[p svg] position]. unfold thenRenderLegendItem.
  destruct p as [|[]|e]; [done| |done].
  unfold renderLegendItem. destruct (item_rule item) as [rule|]; [|done].
  destruct (getRuleIcon ext rule); [done| |done].
  by apply advanceAfterItem_NaN.
Qed.

Lemma renderLegend_NaN legend svg position :
  fst position = JS.NaN ->
  fst (snd (renderLegend ext config legend svg position)) = JS.NaN.
Proof.
  intros Hp. unfold renderLegend.
  assert (Hb : fst (columnBreakBefore config legend position) = JS.NaN).
  { unfold columnBreakBefore. destruct (_ && _); [|done].
    destruct (JS.gt _ _); [|done]. simpl. by rewrite Hp. }
  destruct (placeTitle legend (D3.create "g") _) as [container p] eqn:Ht.
  apply items_NaN. unfold placeTitle in Ht.
  by destruct (bool_decide (title legend <> "")); injection Ht as <- <-.
Qed.

Lemma renderImages_NaN (l : list RemoteLegend) svg position :
  fst position = JS.NaN ->
  fst (snd (renderImages ext config l svg position)) = JS.NaN.
Proof.
  intros Hp. unfold renderImages.
  assert (Hf : forall cur, fst (snd cur) = JS.NaN ->
                 fst (snd (fold_left (renderImage ext config) l cur)) = JS.NaN).
  { induction l as [|remote l IH]; intros cur Hc; cbn [fold_left]; [done|].
    apply IH. destruct cur as [s [x y]]. simpl in Hc. subst x.
    unfold renderImage. destruct (fetchImage ext (url remote)); [|done].
    cbn [fst snd].
    by destruct (_ && _); destruct (bool_decide (remote_title remote <> "")). }
  specialize (Hf (svg, position) Hp).
  by destruct (fold_left _ l _) as [svg' p'].
Qed.

End LostColumn.

(** X16: with a column height but no column width, the first item that
    starts a new column turns columnX into NaN, and once columnX is NaN it
    stays NaN through every later legend and remote legend. *)
Theorem columnX_lost {OlStyle Error : Type}
    (ext : Collaborators OlStyle Error) (config : LegendsConfiguration) (limit : Z) :
  maxColumnWidth config = None ->
  maxColumnHeight config = Some limit ->
  limit <> 0 ->
  (forall (columnX : JS.num) (rowY : Z),
     rowY + 70 >= limit ->
     advanceAfterItem config (columnX, JS.Num rowY) = (JS.NaN, JS.Num 5))
  /\ (forall legend svg position,
        fst position = JS.NaN ->
        fst (snd (renderLegend ext config legend svg position)) = JS.NaN)
  /\ (forall l svg position,
        fst position = JS.NaN ->
        fst (snd (renderImages ext config l svg position)) = JS.NaN).
Proof.
  intros Hw Hh Hn. split; [|split].
  - intros columnX rowY Hge. unfold advanceAfterItem. rewrite Hw, Hh. simpl.
    rewrite (bool_decide_eq_false_2 _ Hn). simpl.
    rewrite bool_decide_eq_true_2 by lia. by rewrite add_NaN_r.
  - apply renderLegend_NaN.
  - apply renderImages_NaN.
Qed.

Lemma columnX_lost_witness :
  advanceAfterItem heightOnly (JS.Num 0, JS.Num 55) = (JS.NaN, JS.Num 5)
  /\ fst (snd (renderLegend Sample.working heightOnly Sample.manual
                 (frame heightOnly) (JS.NaN, JS.Num 5))) = JS.NaN.
Proof.
  destruct (columnX_lost Sample.working heightOnly 100 eq_refl eq_refl
              ltac:(discriminate)) as (Hbreak & Hlegend & _).
  split.
  - apply Hbreak. lia.
  - apply Hlegend. reflexivity.
Defined.

(** ** Styles through the renderer *)

Lemma filter_ruled_rules (l : list Rule) :
  List.filter ruled (map (fun rule => mkItem (Some rule) (rule_name rule)) l)
  = map (fun rule => mkItem (Some rule) (rule_name rule)) l.
Proof. induction l as [|rule l IH]; simpl; [done|]. by rewrite IH. Qed.

(** X17: the legend derived from a style puts one [legend-item] group per
    rule of the style on the frame, in rule order and titled by the name of
    the rule, after the group of its title; this holds whatever becomes of
    the icons. *)
Theorem renderLegend_style_groups {OlStyle Error : Type}
    (ext : Collaborators OlStyle Error) (config : LegendsConfiguration)
    (style : Style) (svg : Element) (position : Position) :
  exists titleGroup groups svg' position',
    renderLegend ext config (extractConfigFromStyle style) svg position
    = (Fulfilled tt, svg', position')
    /\ children svg' = children svg ++ titleGroup :: groups
    /\ length groups = length (rules style)
    /\ Forall2 (fun g rule =>
                  isLegendItem g = true
                  /\ attrs g !! "title" = Some (AStr (rule_name rule)))
               groups (rules style).
Proof.
  unfold renderLegend.
  destruct (placeTitle (extractConfigFromStyle style) (D3.create "g") _)
    as [container p].
  destruct (items_groups ext config (items (extractConfigFromStyle style))
              (D3.append container svg) p)
    as (groups & svg' & p' & -> & Hc & Hf).
  rewrite extractConfigFromStyle_items in Hf.
  rewrite filter_ruled_rules in Hf. apply Forall2_fmap_r in Hf. simpl in Hf.
  exists container, groups, svg', p'. split; [done|].
  split; [rewrite Hc; destruct svg; simpl; by rewrite <- app_assoc|].
  split; [by apply Forall2_length in Hf|done].
Qed.

(** ** The namespace of the frame *)

Lemma placeLegends_attrs {OlStyle Error : Type}
    (ext : Collaborators OlStyle Error) (config : LegendsConfiguration) :
  exists placed position,
    placeLegends ext config = (Fulfilled tt, placed, position)
    /\ attrs placed
       = match remoteLegends config with
         | Some _ => <["xmlns" := AStr "http://www.w3.org/2000/svg"]>
                       (attrs (frame config))
         | None => attrs (frame config)
         end.
Proof.
  unfold placeLegends.
  destruct (legends_fulfilled ext config (legendList config) (frame config)
              (JS.Num 0, JS.Num 0)) as (svg & p & -> & Ha).
  destruct (remoteLegends config) as [l|].
  - pose proof (renderImages_attrs ext config l svg p) as Hr.
    destruct (renderImages ext config l svg p) as [svg' p']. simpl in Hr.
    do 2 eexists. split; [reflexivity|]. by rewrite Hr, Ha.
  - do 2 eexists. split; [reflexivity|done].
Qed.

(** X18: the frame [render] returns carries the SVG namespace attribute
    exactly when remote legends are configured, be the list empty or every
    fetch a failure; without them the frame has no [xmlns]. *)
Theorem render_xmlns {OlStyle Error : Type}
    (ext : Collaborators OlStyle Error) (config : LegendsConfiguration)
    (fuel : nat) (svg : Element) :
  render ext config fuel = Completed svg ->
  attrs svg !! "xmlns"
  = match remoteLegends config with
    | Some _ => Some (AStr "http://www.w3.org/2000/svg")
    | None => None
    end.
Proof.
  unfold render.
  assert (Hfr : attrs (frame config) !! "xmlns" = None)
    by (unfold frame; by destruct (size config)).
  destruct (size config) as [width height].
  destruct (placeLegends_attrs ext config) as (placed & p & -> & Ha).
  destruct (shortenLabels ext fuel placed (maxColumnWidth config))
    as [fitted| |] eqn:Hs; [|done..].
  apply shortenLabels_attrs in Hs.
  assert (Hx : attrs fitted !! "xmlns"
               = match remoteLegends config with
                 | Some _ => Some (AStr "http://www.w3.org/2000/svg")
                 | None => None
                 end).
  { rewrite Hs, Ha. destruct (remoteLegends config).
    - by rewrite lookup_insert_eq.
    - exact Hfr. }
  destruct (negb _); intros [= <-]; [|exact Hx].
  destruct fitted; simpl in *. by rewrite !lookup_insert_ne.
Qed.

Lemma render_xmlns_witness :
  (exists svg,
     render Sample.working Sample.config 0 = Completed svg
     /\ attrs svg !! "xmlns" = Some (AStr "http://www.w3.org/2000/svg"))
  /\ (exists svg,
        render Sample.working Sample.grouped 0 = Completed svg
        /\ attrs svg !! "xmlns" = None).
Proof.
  split; eexists; (split; [reflexivity|]).
  - apply (render_xmlns Sample.working Sample.config 0). reflexivity.
  - apply (render_xmlns Sample.working Sample.grouped 0). reflexivity.
Defined.

(** ** When an icon is delivered *)

(** X19: the promise of [getRuleIcon] is never left pending, and it fulfills
    only when the translator reported no error and the canvas that was drawn
    could be exported: the data URI it delivers is that export. *)
Theorem getRuleIcon_fulfilled_only {OlStyle Error : Type}
    (ext : Collaborators OlStyle Error) (rule : Rule) :
  getRuleIcon ext rule <> Pending
  /\ forall uri,
       getRuleIcon ext rule = Fulfilled uri ->
       reportedErrors ext rule = []
       /\ fst (executor ext (ruleStyle rule) (ruleGeoms rule) freshState) = Some tt
       /\ toDataURL ext
            (canvas (snd (executor ext (ruleStyle rule) (ruleGeoms rule) freshState)))
          = Some uri.
Proof.
  split; [apply getRuleIcon_not_pending|].
  intros uri Hi. destruct (reportedErrors ext rule) as [|e es] eqn:He.
  - split; [done|]. pose proof (getRuleIcon_no_errors ext rule He) as Hs.
    destruct (executor _ _ _ _) as [[[]|] st]; simpl.
    + destruct Hs as (uri' & Hu & Hf). rewrite Hf in Hi. by injection Hi as ->.
    + by rewrite Hs in Hi.
  - by rewrite (getRuleIcon_reported ext rule e es He) in Hi.
Qed.

Lemma getRuleIcon_fulfilled_only_witness :
  reportedErrors Sample.working Sample.fillRule = []
  /\ fst (executor Sample.working (ruleStyle Sample.fillRule)
            (ruleGeoms Sample.fillRule) freshState) = Some tt
  /\ toDataURL Sample.working
       (canvas (snd (executor Sample.working (ruleStyle Sample.fillRule)
                       (ruleGeoms Sample.fillRule) freshState)))
     = Some Sample.pngUri.
Proof.
  apply (proj2 (getRuleIcon_fulfilled_only Sample.working Sample.fillRule)
           Sample.pngUri).
  reflexivity.
Defined.
